(** * University Admission API (API_371db/app.py)

    A shallow embedding of the credential and session manager
    ([authenticate_user], [create_access_token], [get_current_user],
    [login_for_access_token], [register_applicant]) and of the exam-roll
    allocator ([create_admit_card]).

    Conventions.
    - A [datetime] is a POSIX timestamp in whole seconds ([Z]), the resolution
      of the JWT [exp] claim; [timedelta(minutes=m)] is [60 * m] seconds.
    - The relational store is a record of tables, each a list of rows in
      insertion order; [cursor.fetchone()] is the first matching row.
    - A connection carries the committed tables and the working copy of the
      open transaction; [conn.commit()] installs the working copy,
      [conn.rollback()] discards it, [conn.close()] leaves what was committed.
    - The table declarations are not part of app.py: the uniqueness
      constraints the handlers rely on are the fields of [Schema].
    - Every statement sent to the store may fail for reasons the tables do not
      decide (lost connection, foreign keys, ...): a [FaultPlan] says which
      statement of a request fails, and with which MySQL error number. *)

From Stdlib Require Import ZArith List String Bool Lia QArith_base DecimalString.
Import ListNotations.
Local Open Scope Z_scope.

(** ** Data model *)

(** class Gender(str, Enum) *)
Inductive Gender := MALE | FEMALE | OTHER.

(** class ApplicantBase(BaseModel); the two GPA floats are carried as
    rationals, no handler computes with them. *)
Record ApplicantBase := {
  first_name : string;
  last_name : string;
  date_of_birth : option Z;
  gender : Gender;
  phone_number : option string;
  email : string;
  address : option string;
  ssc_gpa : Q;
  hsc_gpa : Q
}.

(** class ApplicantCreate(ApplicantBase): the base fields and the password. *)
Record ApplicantCreate := {
  base : ApplicantBase;
  password : string
}.

(** A row of applicant_info (class Applicant). *)
Record ApplicantRow := {
  info_applicant_id : Z;
  info_fields : ApplicantBase;
  created_at : Z;
  updated_at : Z
}.

(** A row of applicant_login. *)
Record LoginRow := {
  login_email : string;
  password_hash : string;
  last_login : option Z
}.

(** class AdmitCardCreate(AdmitCardBase) *)
Record AdmitCardCreate := {
  applicant_id : Z;
  unit_id : Z;
  room_no : option Z
}.

(** A row of admit_card (class AdmitCard). *)
Record AdmitCard := {
  card_request : AdmitCardCreate;
  exam_roll : Z;
  issued_at : Z;
  applicant_photo : option string
}.

Record DB := {
  applicant_info : list ApplicantRow;
  applicant_login : list LoginRow;
  admit_card : list AdmitCard
}.

(** The uniqueness constraints of the table declarations. *)
Record Schema := {
  info_email_unique : bool;
  login_email_unique : bool;
  card_roll_unique : bool;
  card_applicant_unique : bool
}.

(** Modelled from the spec: the table declarations, which app.py does not
    contain. Every uniqueness constraint is in force: one credential per
    email, one applicant per email, one card per roll number, one card per
    applicant. *)
Definition strict_schema : Schema :=
  {| info_email_unique := true; login_email_unique := true;
     card_roll_unique := true; card_applicant_unique := true |}.

(** ** Exceptions and responses *)

(** fastapi.HTTPException *)
Record HTTPException := {
  status_code : Z;
  detail : string;
  headers : list (string * string)
}.

(** Exceptions other than HTTPException that a handler body can raise:
    mysql.connector.Error with its errno, and the TypeError of subscripting
    None. *)
Inductive PyError :=
| MySqlError (errno : Z)
| TypeError.

(** What a handler raises: either a response chosen by the handler or an
    exception that escapes it. *)
Inductive Raised :=
| HTTPExn (h : HTTPException)
| PyExn (e : PyError).

(** jwt.PyJWTError and the subclasses the decoder raises. *)
Inductive PyJWTError :=
| DecodeError
| InvalidSignatureError
| ExpiredSignatureError.

(** ** Session tokens *)

(** The claims dictionary handed to jwt.encode. *)
Record JwtClaims := {
  sub : option string;
  exp : option Z
}.

(** A bearer string: a signed claim set, or a string that is no JWS at all. *)
Inductive Token :=
| Jws (claims : JwtClaims) (signature : string)
| Opaque (s : string).

(** class Token(BaseModel) *)
Record TokenResponse := {
  access_token : Token;
  token_type : string
}.

(** ** Library primitives the handlers call *)

Class Platform := {
  (** hashlib.sha256(s.encode("utf-8")).hexdigest() *)
  sha256_hexdigest : string -> string;
  (** the HS256 signature of a claim set under a key *)
  hs256 : string -> JwtClaims -> string;
  (** os.getenv("SECRET_KEY", "your-secret-key") *)
  SECRET_KEY : string;
  (** str(e) of a caught exception *)
  str_exn : Raised -> string;
  (** base64.b64encode(b).decode("utf-8") *)
  b64encode : string -> string
}.

(** ACCESS_TOKEN_EXPIRE_MINUTES = 30 *)
Definition ACCESS_TOKEN_EXPIRE_MINUTES : Z := 30.

Definition timedelta_minutes (m : Z) : Z := 60 * m.

(** MySQL's ER_DUP_ENTRY *)
Definition ER_DUP_ENTRY : Z := 1062.

Definition HTTP_400_BAD_REQUEST : Z := 400.
Definition HTTP_401_UNAUTHORIZED : Z := 401.
Definition HTTP_500_INTERNAL_SERVER_ERROR : Z := 500.

(** ** Connections and transactions *)

Definition FaultPlan := nat -> option Z.

Definition no_faults : FaultPlan := fun _ => None.

Record Conn := {
  committed : DB;
  working : DB
}.

(** get_db_connection(): a pooled connection with a fresh transaction. *)
Definition get_db_connection (db : DB) : Conn :=
  {| committed := db; working := db |}.

(** A handler body: it threads the connection and may raise. *)
Definition Tx (A : Type) : Type := Conn -> Conn * (PyError + A).

Definition ret {A} (a : A) : Tx A := fun c => (c, inr a).

Definition raise {A} (e : PyError) : Tx A := fun c => (c, inl e).

Definition bind {A B} (m : Tx A) (k : A -> Tx B) : Tx B :=
  fun c =>
    match m c with
    | (c', inl e) => (c', inl e)
    | (c', inr a) => k a c'
    end.

Declare Scope tx_scope.
Delimit Scope tx_scope with tx.
Notation "x <- m ;; k" := (bind m (fun x => k))
  (at level 100, m at next level, right associativity) : tx_scope.
Notation "m ;;; k" := (bind m (fun _ => k))
  (at level 100, right associativity) : tx_scope.

(** cursor.execute of a SELECT followed by the fetch: statement [k] of the
    request reads the working copy. *)
Definition query {A} (fp : FaultPlan) (k : nat) (q : DB -> A) : Tx A :=
  fun c =>
    match fp k with
    | Some e => (c, inl (MySqlError e))
    | None => (c, inr (q (working c)))
    end.

(** cursor.execute of an INSERT or UPDATE: statement [k] changes the working
    copy unless the store refuses it. *)
Definition execute (fp : FaultPlan) (k : nat) (u : DB -> PyError + DB) : Tx unit :=
  fun c =>
    match fp k with
    | Some e => (c, inl (MySqlError e))
    | None =>
        match u (working c) with
        | inl e => (c, inl e)
        | inr w => ({| committed := committed c; working := w |}, inr tt)
        end
    end.

(** conn.commit() *)
Definition commit (fp : FaultPlan) (k : nat) : Tx unit :=
  fun c =>
    match fp k with
    | Some e => (c, inl (MySqlError e))
    | None => ({| committed := working c; working := working c |}, inr tt)
    end.

(** conn.rollback() *)
Definition rollback (c : Conn) : Conn :=
  {| committed := committed c; working := committed c |}.

(** conn.close(): the store keeps what was committed. *)
Definition close (c : Conn) : DB := committed c.

(** ** The tables: queries and updates *)

(** SELECT * FROM applicant_login WHERE email = %s; fetchone() *)
Definition select_login (e : string) (db : DB) : option LoginRow :=
  find (fun r => String.eqb (login_email r) e) (applicant_login db).

(** SELECT * FROM applicant_info WHERE email = %s; fetchone() *)
Definition select_info (e : string) (db : DB) : option ApplicantRow :=
  find (fun r => String.eqb (email (info_fields r)) e) (applicant_info db).

(** UPDATE applicant_login SET last_login = NOW() WHERE email = %s *)
Definition update_last_login (now : Z) (e : string) (db : DB) : PyError + DB :=
  inr {| applicant_info := applicant_info db;
         applicant_login :=
           map (fun r =>
                  if String.eqb (login_email r) e
                  then {| login_email := login_email r;
                          password_hash := password_hash r;
                          last_login := Some now |}
                  else r)
               (applicant_login db);
         admit_card := admit_card db |}.

(** What UPDATE ... SET last_login leaves in the store. *)
Definition touched (now : Z) (e : string) (db : DB) : DB :=
  match update_last_login now e db with
  | inr db' => db'
  | inl _ => db
  end.

(** Modelled from the spec: the declaration of applicant_info, which gives an
    applicant a unique numeric id. The key of a new row lies past every
    stored one. *)
Definition next_applicant_id (rows : list ApplicantRow) : Z :=
  1 + fold_right (fun r m => Z.max (info_applicant_id r) m) 0 rows.

(** INSERT INTO applicant_info (first_name, ..., hsc_gpa) VALUES (...) *)
Definition insert_applicant_info (sch : Schema) (now : Z) (a : ApplicantBase)
    (db : DB) : PyError + DB :=
  if info_email_unique sch
     && existsb (fun r => String.eqb (email (info_fields r)) (email a))
                (applicant_info db)
  then inl (MySqlError ER_DUP_ENTRY)
  else inr {| applicant_info :=
                applicant_info db ++
                [ {| info_applicant_id := next_applicant_id (applicant_info db);
                     info_fields := a;
                     created_at := now;
                     updated_at := now |} ];
              applicant_login := applicant_login db;
              admit_card := admit_card db |}.

(** INSERT INTO applicant_login (email, password_hash) VALUES (%s, %s) *)
Definition insert_applicant_login (sch : Schema) (e h : string) (db : DB)
    : PyError + DB :=
  if login_email_unique sch
     && existsb (fun r => String.eqb (login_email r) e) (applicant_login db)
  then inl (MySqlError ER_DUP_ENTRY)
  else inr {| applicant_info := applicant_info db;
              applicant_login :=
                applicant_login db ++
                [ {| login_email := e; password_hash := h; last_login := None |} ];
              admit_card := admit_card db |}.

(** MAX over a column: NULL on no rows. *)
Fixpoint sql_max (l : list Z) : option Z :=
  match l with
  | [] => None
  | x :: r =>
      match sql_max r with
      | None => Some x
      | Some m => Some (Z.max x m)
      end
  end.

(** SELECT MAX(exam_roll) AS max_roll FROM admit_card; fetchone()["max_roll"] *)
Definition select_max_roll (db : DB) : option Z :=
  sql_max (map exam_roll (admit_card db)).

(** INSERT INTO admit_card (applicant_id, unit_id, room_no, exam_roll)
    VALUES (...): issued_at takes the store's clock, the photo stays NULL. *)
Definition insert_admit_card (sch : Schema) (now : Z) (data : AdmitCardCreate)
    (roll : Z) (db : DB) : PyError + DB :=
  if (card_roll_unique sch
      && existsb (fun r => exam_roll r =? roll) (admit_card db))
     || (card_applicant_unique sch
         && existsb (fun r => applicant_id (card_request r) =? applicant_id data)
                    (admit_card db))
  then inl (MySqlError ER_DUP_ENTRY)
  else inr {| applicant_info := applicant_info db;
              applicant_login := applicant_login db;
              admit_card :=
                admit_card db ++
                [ {| card_request := data; exam_roll := roll;
                     issued_at := now; applicant_photo := None |} ] |}.

(** SELECT * FROM admit_card WHERE exam_roll = %s; fetchone() *)
Definition select_card_by_roll (roll : Z) (db : DB) : option AdmitCard :=
  find (fun r => exam_roll r =? roll) (admit_card db).

(** Python's [x or d] on an optional integer: [d] when [x] is None or 0. *)
Definition py_or (x : option Z) (d : Z) : Z :=
  match x with
  | None => d
  | Some v => if v =? 0 then d else v
  end.

Section Handlers.

Context `{Platform}.

Local Open Scope tx_scope.

(** ** Password digests *)

Definition get_password_hash (password : string) : string :=
  sha256_hexdigest password.

Definition verify_password (plain_password hashed_password : string) : bool :=
  String.eqb (get_password_hash plain_password) hashed_password.

(** ** authenticate_user *)

(** What authenticate_user returns: False, or the fetched applicant_info row
    (None when there is none). *)
Inductive AuthResult :=
| AuthFalse
| AuthUser (applicant_info : option ApplicantRow).

(** Python's [not user] on that value. *)
Definition not_user (u : AuthResult) : bool :=
  match u with
  | AuthFalse => true
  | AuthUser None => true
  | AuthUser (Some _) => false
  end.

Definition authenticate_user_body (fp : FaultPlan) (db_now : Z)
    (email password : string) : Tx AuthResult :=
  user <- query fp 0 (select_login email) ;;
  match user with
  | None => ret AuthFalse
  | Some u =>
      if negb (verify_password password (password_hash u)) then ret AuthFalse
      else
        execute fp 1 (update_last_login db_now email) ;;;
        commit fp 2 ;;;
        applicant_info <- query fp 3 (select_info email) ;;
        ret (AuthUser applicant_info)
  end.

(** try: body; finally: cursor.close(); conn.close() *)
Definition authenticate_user (fp : FaultPlan) (db_now : Z) (db : DB)
    (email password : string) : DB * (PyError + AuthResult) :=
  let '(c, r) := authenticate_user_body fp db_now email password
                   (get_db_connection db) in
  (close c, r).

(** ** Tokens *)

(** jwt.encode(claims, key, algorithm="HS256") *)
Definition jwt_encode (claims : JwtClaims) (key : string) : Token :=
  Jws claims (hs256 key claims).

(** jwt.decode(token, key, algorithms=["HS256"]) at instant [now]: the
    signature is verified first, then the exp claim, which must lie after
    [now]. *)
Definition jwt_decode (token : Token) (key : string) (now : Z)
    : PyJWTError + JwtClaims :=
  match token with
  | Opaque _ => inl DecodeError
  | Jws claims signature =>
      if String.eqb signature (hs256 key claims) then
        match exp claims with
        | Some e => if e <=? now then inl ExpiredSignatureError else inr claims
        | None => inr claims
        end
      else inl InvalidSignatureError
  end.

(** Python's truth value of an Optional[timedelta]. *)
Definition truthy_delta (d : option Z) : bool :=
  match d with
  | None => false
  | Some v => negb (v =? 0)
  end.

Definition create_access_token (utcnow : Z) (data : JwtClaims)
    (expires_delta : option Z) : Token :=
  let expire :=
    if truthy_delta expires_delta
    then utcnow + match expires_delta with Some d => d | None => 0 end
    else utcnow + timedelta_minutes 15 in
  let to_encode := {| sub := sub data; exp := Some expire |} in
  jwt_encode to_encode SECRET_KEY.

Definition credentials_exception : HTTPException :=
  {| status_code := HTTP_401_UNAUTHORIZED;
     detail := "Could not validate credentials";
     headers := [("WWW-Authenticate", "Bearer")] |}%string.

(** get_current_user(token), called at instant [now]. *)
Definition get_current_user (fp : FaultPlan) (now : Z) (db : DB) (token : Token)
    : Raised + ApplicantRow :=
  match jwt_decode token SECRET_KEY now with
  | inl _ => inl (HTTPExn credentials_exception)
  | inr payload =>
      match sub payload with
      | None => inl (HTTPExn credentials_exception)
      | Some email =>
          match query fp 0 (select_info email) (get_db_connection db) with
          | (_, inl e) => inl (PyExn e)
          | (_, inr None) => inl (HTTPExn credentials_exception)
          | (_, inr (Some user)) => inr user
          end
      end
  end.

(** ** login_for_access_token *)

Definition incorrect_email_or_password : HTTPException :=
  {| status_code := HTTP_401_UNAUTHORIZED;
     detail := "Incorrect email or password";
     headers := [("WWW-Authenticate", "Bearer")] |}%string.

(** The [except Exception as e] clause of the endpoint: whatever was raised in
    the body, the 401 above included, leaves as a 500. *)
Definition login_error (e : Raised) : HTTPException :=
  {| status_code := HTTP_500_INTERNAL_SERVER_ERROR;
     detail := String.append "Error during authentication: " (str_exn e);
     headers := [] |}.

(** login_for_access_token(form_data): [db_now] is the store's NOW(),
    [utcnow] the application's datetime.utcnow(). *)
Definition login_for_access_token (fp : FaultPlan) (db_now utcnow : Z) (db : DB)
    (username form_password : string) : DB * (HTTPException + TokenResponse) :=
  match authenticate_user fp db_now db username form_password with
  | (db', inl e) => (db', inl (login_error (PyExn e)))
  | (db', inr user) =>
      match user with
      | AuthUser (Some u) =>
          let access_token_expires := timedelta_minutes ACCESS_TOKEN_EXPIRE_MINUTES in
          let access_token :=
            create_access_token utcnow
              {| sub := Some (email (info_fields u)); exp := None |}
              (Some access_token_expires) in
          (db', inr {| access_token := access_token; token_type := "bearer" |})
      | _ => (db', inl (login_error (HTTPExn incorrect_email_or_password)))
      end
  end.

(** ** register_applicant *)

Definition register_body (sch : Schema) (fp : FaultPlan) (db_now : Z)
    (applicant : ApplicantCreate) : Tx string :=
  execute fp 0 (insert_applicant_info sch db_now (base applicant)) ;;;
  let password_hash := get_password_hash (password applicant) in
  execute fp 1 (insert_applicant_login sch (email (base applicant)) password_hash) ;;;
  commit fp 2 ;;;
  ret "Applicant registered successfully"%string.

(** The response of [except mysql.connector.Error as err], after the
    rollback. *)
Definition register_error (errno : Z) : HTTPException :=
  if errno =? ER_DUP_ENTRY
  then {| status_code := HTTP_400_BAD_REQUEST;
          detail := "Email already registered";
          headers := [] |}
  else {| status_code := HTTP_500_INTERNAL_SERVER_ERROR;
          detail := String.append "Database error: "
                                  (str_exn (PyExn (MySqlError errno)));
          headers := [] |}.

Definition register_applicant (sch : Schema) (fp : FaultPlan) (db_now : Z)
    (db : DB) (applicant : ApplicantCreate) : DB * (Raised + string) :=
  match register_body sch fp db_now applicant (get_db_connection db) with
  | (c, inr message) => (close c, inr message)
  | (c, inl (MySqlError errno)) =>
      (close (rollback c), inl (HTTPExn (register_error errno)))
  | (c, inl TypeError) => (close c, inl (PyExn TypeError))
  end.

(** ** create_admit_card *)

(** The floor of the roll sequence, the literal of the handler. *)
Definition ROLL_FLOOR : Z := 220430.

(** Lines "Generate exam roll": read the maximum, default it, add one. *)
Definition generate_exam_roll (fp : FaultPlan) : Tx Z :=
  max <- query fp 0 select_max_roll ;;
  let max_roll := py_or max ROLL_FLOOR in
  let new_roll := max_roll + 1 in
  ret new_roll.

(** The BLOB of a fetched card as base64, when there is one and it is not
    empty. *)
Definition photo_to_base64 (card : AdmitCard) : AdmitCard :=
  match applicant_photo card with
  | Some photo =>
      if String.eqb photo EmptyString then card
      else {| card_request := card_request card;
              exam_roll := exam_roll card;
              issued_at := issued_at card;
              applicant_photo := Some (b64encode photo) |}
  | None => card
  end.

(** Lines "Insert admit card" to the return: insert, commit, fetch the card
    back by its roll. *)
Definition store_admit_card (sch : Schema) (fp : FaultPlan) (db_now : Z)
    (admit_card : AdmitCardCreate) (new_roll : Z) : Tx AdmitCard :=
  execute fp 1 (insert_admit_card sch db_now admit_card new_roll) ;;;
  commit fp 2 ;;;
  new_admit_card <- query fp 3 (select_card_by_roll new_roll) ;;
  match new_admit_card with
  | None => raise TypeError
  | Some card => ret (photo_to_base64 card)
  end.

Definition create_admit_card_body (sch : Schema) (fp : FaultPlan) (db_now : Z)
    (admit_card : AdmitCardCreate) : Tx AdmitCard :=
  new_roll <- generate_exam_roll fp ;;
  store_admit_card sch fp db_now admit_card new_roll.

(** The response of [except mysql.connector.Error as err]. *)
Definition database_error (errno : Z) : HTTPException :=
  {| status_code := HTTP_500_INTERNAL_SERVER_ERROR;
     detail := String.append "Database error: "
                             (str_exn (PyExn (MySqlError errno)));
     headers := [] |}.

(** The except and finally clauses of create_admit_card. *)
Definition admit_card_outcome (r : Conn * (PyError + AdmitCard))
    : DB * (Raised + AdmitCard) :=
  match r with
  | (c, inr card) => (close c, inr card)
  | (c, inl (MySqlError errno)) =>
      (close (rollback c), inl (HTTPExn (database_error errno)))
  | (c, inl TypeError) => (close c, inl (PyExn TypeError))
  end.

Definition create_admit_card (sch : Schema) (fp : FaultPlan) (db_now : Z)
    (db : DB) (admit_card : AdmitCardCreate) : DB * (Raised + AdmitCard) :=
  admit_card_outcome
    (create_admit_card_body sch fp db_now admit_card (get_db_connection db)).

End Handlers.

(** The store after a registration that went through: both rows appended. *)
Definition registered `{Platform} (db_now : Z) (db : DB) (applicant : ApplicantCreate)
    : DB :=
  {| applicant_info :=
       applicant_info db ++
       [ {| info_applicant_id := next_applicant_id (applicant_info db);
            info_fields := base applicant;
            created_at := db_now;
            updated_at := db_now |} ];
     applicant_login :=
       applicant_login db ++
       [ {| login_email := email (base applicant);
            password_hash := get_password_hash (password applicant);
            last_login := None |} ];
     admit_card := admit_card db |}.

(** ** Concurrent issuance

    create_admit_card talks to the store twice: once to read the maximum
    ([generate_exam_roll]), once to insert and commit ([store_admit_card]).
    Requests served in parallel interleave at that point, so a call in flight
    is in one of three phases and a schedule names, step by step, the call
    that moves next. *)

Section Concurrent.

Context `{Platform}.

Inductive Phase :=
| Pending
| Allocated (new_roll : Z)
| Finished (response : Raised + AdmitCard).

Record Call := {
  call_request : AdmitCardCreate;
  call_phase : Phase
}.

Definition step_call (sch : Schema) (fp : FaultPlan) (db_now : Z) (db : DB)
    (c : Call) : DB * Call :=
  match call_phase c with
  | Pending =>
      match generate_exam_roll fp (get_db_connection db) with
      | (_, inr new_roll) =>
          (db, {| call_request := call_request c;
                  call_phase := Allocated new_roll |})
      | (cn, inl e) =>
          let '(db', r) := admit_card_outcome (cn, inl e) in
          (db', {| call_request := call_request c; call_phase := Finished r |})
      end
  | Allocated new_roll =>
      let '(db', r) :=
        admit_card_outcome
          (store_admit_card sch fp db_now (call_request c) new_roll
                            (get_db_connection db)) in
      (db', {| call_request := call_request c; call_phase := Finished r |})
  | Finished _ => (db, c)
  end.

(** One step of the system: call number [i] moves. *)
Fixpoint step_at (sch : Schema) (fp : FaultPlan) (db_now : Z) (i : nat)
    (db : DB) (calls : list Call) {struct calls} : DB * list Call :=
  match calls with
  | [] => (db, [])
  | c :: rest =>
      match i with
      | O =>
          let '(db', c') := step_call sch fp db_now db c in
          (db', c' :: rest)
      | S j =>
          let '(db', rest') := step_at sch fp db_now j db rest in
          (db', c :: rest')
      end
  end.

Fixpoint run (sch : Schema) (fp : FaultPlan) (db_now : Z) (schedule : list nat)
    (db : DB) (calls : list Call) : DB * list Call :=
  match schedule with
  | [] => (db, calls)
  | i :: later =>
      let '(db', calls') := step_at sch fp db_now i db calls in
      run sch fp db_now later db' calls'
  end.

Definition launch (requests : list AdmitCardCreate) : list Call :=
  map (fun r => {| call_request := r; call_phase := Pending |}) requests.

Definition is_finished (c : Call) : bool :=
  match call_phase c with
  | Finished _ => true
  | _ => false
  end.

Definition is_issued (c : Call) : bool :=
  match call_phase c with
  | Finished (inr _) => true
  | _ => false
  end.

(** The schedule that serves the calls one after another: both steps of call
    0, then both steps of call 1, and so on, for [n] calls from number [i]. *)
Fixpoint one_by_one (i n : nat) : list nat :=
  match n with
  | O => []
  | S m => i :: i :: one_by_one (S i) m
  end.

(** Number of calls that ended with a card. *)
Definition issued_count (calls : list Call) : nat :=
  List.length (filter is_issued calls).

(** A roll allocated but not yet inserted lies between floor + 1 and one past
    the [k] rolls on file. *)
Definition allocation_in_range (k : nat) (c : Call) : Prop :=
  match call_phase c with
  | Allocated r => ROLL_FLOOR + 1 <= r <= ROLL_FLOOR + Z.of_nat k + 1
  | _ => True
  end.

End Concurrent.

(** The roll numbers [floor + 1, ..., floor + n], in increasing order. *)
Definition rolls_above (floor : Z) (n : nat) : list Z :=
  map (fun i => floor + Z.of_nat i) (seq 1 n).

(** The outcome the issuance property asks of [n] calls: [n] cards, no roll
    twice, and the rolls exactly those from floor + 1 to floor + n. *)
Definition consecutive_rolls (n : nat) (db : DB) : Prop :=
  List.length (admit_card db) = n /\
  NoDup (map exam_roll (admit_card db)) /\
  forall r, In r (map exam_roll (admit_card db)) <->
            ROLL_FLOOR + 1 <= r <= ROLL_FLOOR + Z.of_nat n.

(** The rolls on file are exactly floor + 1, ..., floor + (number of cards),
    in the order of insertion. *)
Definition rolls_dense (db : DB) : Prop :=
  map exam_roll (admit_card db) =
  rolls_above ROLL_FLOOR (List.length (admit_card db)).

Definition roll_taken (roll : Z) (db : DB) : bool :=
  existsb (fun r => exam_roll r =? roll) (admit_card db).

Definition holds_card (applicant : Z) (db : DB) : bool :=
  existsb (fun r => applicant_id (card_request r) =? applicant) (admit_card db).

Definition has_credential (e : string) (db : DB) : bool :=
  existsb (fun r => String.eqb (login_email r) e) (applicant_login db).

Definition count_credentials (e : string) (db : DB) : nat :=
  List.length (filter (fun r => String.eqb (login_email r) e) (applicant_login db)).

Definition empty_db : DB :=
  {| applicant_info := []; applicant_login := []; admit_card := [] |}.

(** The concurrency property as the specification words it: the calls of
    [requests], for distinct applicants and against an empty admit_card
    table, all served to the end under [schedule], leave exactly one card per
    call with the consecutive rolls from floor + 1. *)
Definition concurrent_issuance_claim `{Platform} (sch : Schema) (db_now : Z)
    (requests : list AdmitCardCreate) (schedule : list nat) : Prop :=
  NoDup (map applicant_id requests) ->
  forall db' calls',
    run sch no_faults db_now schedule empty_db (launch requests) = (db', calls') ->
    forallb is_finished calls' = true ->
    consecutive_rolls (List.length requests) db'.

(** Retry as the specification words it, for a call whose allocated [roll]
    is taken by the time of its insert: when a fresh read-compute-insert
    cycle on the same store issues a card, the caller is not failed but ends
    with a card. *)
Definition retry_claim `{Platform} (sch : Schema) (db_now : Z) (db : DB)
    (request : AdmitCardCreate) (roll : Z) : Prop :=
  roll_taken roll db = true ->
  (exists db1 card,
     create_admit_card sch no_faults db_now db request = (db1, inr card)) ->
  exists db2 card,
    step_call sch no_faults db_now db
      {| call_request := request; call_phase := Allocated roll |} =
    (db2, {| call_request := request; call_phase := Finished (inr card) |}).

(** ** Concrete data for the examples *)

(** A platform to run the handlers on: the digest and the signature are
    stand-ins that keep their argument readable, not SHA-256 and HMAC. *)
Definition example_platform : Platform :=
  {| sha256_hexdigest := fun s => String.append "sha256:" s;
     hs256 := fun key claims =>
                String.append key
                  (String.append
                     (match sub claims with Some s => s | None => EmptyString end)
                     (match exp claims with
                      | Some e => String.append "@" (NilZero.string_of_int (Z.to_int e))
                      | None => EmptyString
                      end));
     SECRET_KEY := "your-secret-key";
     str_exn := fun e =>
                  match e with
                  | HTTPExn h => detail h
                  | PyExn (MySqlError _) => "mysql.connector.Error"
                  | PyExn TypeError => "TypeError"
                  end;
     b64encode := fun s => s |}%string.

Definition alice : ApplicantBase :=
  {| first_name := "Alice"; last_name := "Rahman"; date_of_birth := None;
     gender := FEMALE; phone_number := None; email := "a@x.com";
     address := None; ssc_gpa := (9 # 2)%Q; hsc_gpa := (5 # 1)%Q |}%string.

Definition alice_create : ApplicantCreate :=
  {| base := alice; password := "pw1"%string |}.

(** The store after Alice registered at instant 100. *)
Definition db_alice : DB :=
  {| applicant_info :=
       [ {| info_applicant_id := 1; info_fields := alice;
            created_at := 100; updated_at := 100 |} ];
     applicant_login :=
       [ {| login_email := "a@x.com"; password_hash := "sha256:pw1";
            last_login := None |} ];
     admit_card := [] |}%string.

(** A credential whose applicant_info row is missing. *)
Definition db_orphan : DB :=
  {| applicant_info := [];
     applicant_login :=
       [ {| login_email := "a@x.com"; password_hash := "sha256:pw1";
            last_login := None |} ];
     admit_card := [] |}%string.

Definition card_for (applicant unit : Z) : AdmitCardCreate :=
  {| applicant_id := applicant; unit_id := unit; room_no := None |}.

(** One card on file: applicant 7, unit 1, roll 220431. *)
Definition db_one_card : DB :=
  {| applicant_info := []; applicant_login := [];
     admit_card :=
       [ {| card_request := card_for 7 1; exam_roll := 220431;
            issued_at := 50; applicant_photo := None |} ] |}.

(** No uniqueness constraint at all. *)
Definition lax_schema : Schema :=
  {| info_email_unique := false; login_email_unique := false;
     card_roll_unique := false; card_applicant_unique := false |}.

(** ** The admit card of the signed-in applicant *)

(** SELECT * FROM admit_card WHERE applicant_id = %s; fetchone() *)
Definition select_card_by_applicant (applicant : Z) (db : DB) : option AdmitCard :=
  find (fun r => applicant_id (card_request r) =? applicant) (admit_card db).

(** UPDATE admit_card SET applicant_photo = %s WHERE applicant_id = %s *)
Definition update_applicant_photo (photo : string) (applicant : Z) (db : DB) : DB :=
  {| applicant_info := applicant_info db;
     applicant_login := applicant_login db;
     admit_card :=
       map (fun r =>
              if applicant_id (card_request r) =? applicant
              then {| card_request := card_request r;
                      exam_roll := exam_roll r;
                      issued_at := issued_at r;
                      applicant_photo := Some photo |}
              else r)
           (admit_card db) |}.

Definition photo_eqb (a b : option string) : bool :=
  match a, b with
  | Some x, Some y => String.eqb x y
  | None, None => true
  | _, _ => false
  end.

(** cursor.rowcount after that UPDATE: the rows the WHERE clause matched when
    the connection asks for found rows, the rows whose photo changed
    otherwise. *)
Definition photo_rowcount (found_rows : bool) (photo : string) (applicant : Z)
    (db : DB) : Z :=
  Z.of_nat
    (List.length
       (filter (fun r =>
                  (applicant_id (card_request r) =? applicant)
                  && (found_rows
                      || negb (photo_eqb (applicant_photo r) (Some photo))))
               (admit_card db))).

(** cursor.execute of an UPDATE whose cursor.rowcount is read afterwards. *)
Definition execute_rowcount (fp : FaultPlan) (k : nat) (u : DB -> DB)
    (count : DB -> Z) : Tx Z :=
  fun c =>
    match fp k with
    | Some e => (c, inl (MySqlError e))
    | None =>
        ({| committed := committed c; working := u (working c) |},
         inr (count (working c)))
    end.

Section CardEndpoints.

Context `{Platform}.

Local Open Scope tx_scope.

Definition admit_card_not_found : HTTPException :=
  {| status_code := 404; detail := "Admit card not found"; headers := [] |}.

(** The body of upload_applicant_photo: what it returns, or the
    HTTPException it raises itself. *)
Definition upload_applicant_photo_body (found_rows : bool) (fp : FaultPlan)
    (photo_data : string) (current_user : ApplicantRow)
    : Tx (HTTPException + string) :=
  rowcount <- execute_rowcount fp 0
                (update_applicant_photo photo_data (info_applicant_id current_user))
                (photo_rowcount found_rows photo_data
                                (info_applicant_id current_user)) ;;
  commit fp 1 ;;;
  if rowcount =? 0 then ret (inl admit_card_not_found)
  else ret (inr "Photo uploaded successfully"%string).

(** The response of [except Exception as e], after the rollback. *)
Definition upload_error (e : Raised) : HTTPException :=
  {| status_code := HTTP_500_INTERNAL_SERVER_ERROR;
     detail := String.append "Error uploading photo: " (str_exn e);
     headers := [] |}.

Definition upload_applicant_photo (found_rows : bool) (fp : FaultPlan) (db : DB)
    (photo_data : string) (current_user : ApplicantRow)
    : DB * (HTTPException + string) :=
  match upload_applicant_photo_body found_rows fp photo_data current_user
          (get_db_connection db) with
  | (c, inr (inr message)) => (close c, inr message)
  | (c, inr (inl e)) => (close (rollback c), inl (upload_error (HTTPExn e)))
  | (c, inl e) => (close (rollback c), inl (upload_error (PyExn e)))
  end.

Definition get_admit_card (fp : FaultPlan) (db : DB) (current_user : ApplicantRow)
    : Raised + AdmitCard :=
  match query fp 0 (select_card_by_applicant (info_applicant_id current_user))
          (get_db_connection db) with
  | (_, inl e) => inl (PyExn e)
  | (_, inr None) => inl (HTTPExn admit_card_not_found)
  | (_, inr (Some admit_card)) => inr (photo_to_base64 admit_card)
  end.

(** read_users_me *)
Definition read_users_me (current_user : ApplicantRow) : ApplicantRow :=
  current_user.

(** [Depends(get_current_user)]: the endpoint runs on the applicant the
    token resolves to, or the request ends with what get_current_user
    raised. *)
Definition depends_current_user {S A : Type} (fp : FaultPlan) (now : Z) (db : DB)
    (token : Token) (store : S) (endpoint : ApplicantRow -> S * (Raised + A))
    : S * (Raised + A) :=
  match get_current_user fp now db token with
  | inl e => (store, inl e)
  | inr current_user => endpoint current_user
  end.

End CardEndpoints.

(** ** Exam centers, exam units, payments and results *)

(** A Python float: a finite value, an infinity or NaN. *)
Inductive PyFloat :=
| Finite (q : Q)
| Infinity (negative : bool)
| NaN.

(** Python's [x >= n] for a float [x] and an integer [n]. *)
Definition float_ge (x : PyFloat) (n : Z) : bool :=
  match x with
  | Finite q => Qle_bool (inject_Z n) q
  | Infinity negative => negb negative
  | NaN => false
  end.

Module PaymentStatus.
Inductive t := PAID | PENDING | FAILED.
End PaymentStatus.

Module ResultStatus.
Inductive t := PASSED | FAILED | PENDING.
End ResultStatus.

(** class ExamCenter(BaseModel) *)
Module ExamCenter.
Record t := {
  center_id : option Z;
  center_name : string;
  center_address : string
}.
End ExamCenter.

(** class ExamUnit(BaseModel) *)
Module ExamUnit.
Record t := {
  unit_id : option Z;
  unit_code : string;
  center_id : Z;
  exam_date : Z;
  exam_time : string;
  exam_duration : option Z
}.
End ExamUnit.

(** class PaymentCreate(PaymentBase) *)
Module PaymentCreate.
Record t := {
  applicant_id : Z;
  fee_amount : PyFloat;
  payment_status : PaymentStatus.t;
  payment_datetime : option Z
}.
End PaymentCreate.

(** class Payment(PaymentBase), a row of payment *)
Module Payment.
Record t := {
  payment_id : Z;
  applicant_id : Z;
  fee_amount : PyFloat;
  payment_status : PaymentStatus.t;
  created_at : Z;
  payment_datetime : option Z
}.
End Payment.

(** class ResultCreate(ResultBase) *)
Module ResultCreate.
Record t := {
  applicant_id : Z;
  unit_id : Z;
  marks_obtained : option PyFloat;
  status : ResultStatus.t
}.
End ResultCreate.

(** class Result(ResultBase), a row of result *)
Module Result.
Record t := {
  result_id : Z;
  applicant_id : Z;
  unit_id : Z;
  marks_obtained : option PyFloat;
  status : ResultStatus.t;
  total_marks : Z;
  result_published : option Z
}.
End Result.

(** The dictionary create_result inserts: the request fields and, when the
    key was set, result_published. *)
Record ResultData := {
  data_fields : ResultCreate.t;
  data_result_published : option Z
}.

(** The tables the remaining endpoints work on. Their declarations are not
    part of app.py; an insert the store refuses (a duplicate, a missing
    parent row) is a failing statement of the [FaultPlan]. *)
Record Tables := {
  exam_center : list ExamCenter.t;
  exam_units : list ExamUnit.t;
  payment : list Payment.t;
  result : list Result.t
}.

Record TablesConn := {
  tables_committed : Tables;
  tables_working : Tables
}.

Definition get_tables_connection (t : Tables) : TablesConn :=
  {| tables_committed := t; tables_working := t |}.

(** A handler body over these tables. *)
Definition TablesTx (A : Type) : Type :=
  TablesConn -> TablesConn * (PyError + A).

Definition tables_ret {A} (a : A) : TablesTx A := fun c => (c, inr a).

Definition tables_bind {A B} (m : TablesTx A) (k : A -> TablesTx B) : TablesTx B :=
  fun c =>
    match m c with
    | (c', inl e) => (c', inl e)
    | (c', inr a) => k a c'
    end.

Declare Scope tables_scope.
Delimit Scope tables_scope with tables.
Notation "x <- m ;; k" := (tables_bind m (fun x => k))
  (at level 100, m at next level, right associativity) : tables_scope.
Notation "m ;;; k" := (tables_bind m (fun _ => k))
  (at level 100, right associativity) : tables_scope.

(** cursor.execute of a SELECT followed by the fetch. *)
Definition tables_query {A} (fp : FaultPlan) (k : nat) (q : Tables -> A)
    : TablesTx A :=
  fun c =>
    match fp k with
    | Some e => (c, inl (MySqlError e))
    | None => (c, inr (q (tables_working c)))
    end.

(** cursor.execute of an INSERT; the value is cursor.lastrowid. *)
Definition tables_insert (fp : FaultPlan) (k : nat) (u : Tables -> Tables * Z)
    : TablesTx Z :=
  fun c =>
    match fp k with
    | Some e => (c, inl (MySqlError e))
    | None =>
        let '(w, lastrowid) := u (tables_working c) in
        ({| tables_committed := tables_committed c; tables_working := w |},
         inr lastrowid)
    end.

(** conn.commit() *)
Definition tables_commit (fp : FaultPlan) (k : nat) : TablesTx unit :=
  fun c =>
    match fp k with
    | Some e => (c, inl (MySqlError e))
    | None =>
        ({| tables_committed := tables_working c;
            tables_working := tables_working c |}, inr tt)
    end.

(** conn.rollback() *)
Definition tables_rollback (c : TablesConn) : TablesConn :=
  {| tables_committed := tables_committed c;
     tables_working := tables_committed c |}.

(** conn.close() *)
Definition tables_close (c : TablesConn) : Tables := tables_committed c.

(** The key the store gives a row inserted without one (cursor.lastrowid):
    past every stored key. *)
Definition next_row_id (ids : list Z) : Z :=
  1 + fold_right Z.max 0 ids.

Definition center_ids (t : Tables) : list Z :=
  flat_map (fun r => match ExamCenter.center_id r with
                     | Some i => [i]
                     | None => []
                     end) (exam_center t).

Definition unit_ids (t : Tables) : list Z :=
  flat_map (fun r => match ExamUnit.unit_id r with
                     | Some i => [i]
                     | None => []
                     end) (exam_units t).

(** INSERT INTO exam_center (center_name, center_address) VALUES (%s, %s) *)
Definition insert_exam_center (center : ExamCenter.t) (t : Tables) : Tables * Z :=
  let id := next_row_id (center_ids t) in
  ({| exam_center :=
        exam_center t ++
        [ {| ExamCenter.center_id := Some id;
             ExamCenter.center_name := ExamCenter.center_name center;
             ExamCenter.center_address := ExamCenter.center_address center |} ];
      exam_units := exam_units t;
      payment := payment t;
      result := result t |}, id).

(** INSERT INTO exam_units (unit_code, center_id, exam_date, exam_time,
    exam_duration) VALUES (...) *)
Definition insert_exam_unit (unit : ExamUnit.t) (t : Tables) : Tables * Z :=
  let id := next_row_id (unit_ids t) in
  ({| exam_center := exam_center t;
      exam_units :=
        exam_units t ++
        [ {| ExamUnit.unit_id := Some id;
             ExamUnit.unit_code := ExamUnit.unit_code unit;
             ExamUnit.center_id := ExamUnit.center_id unit;
             ExamUnit.exam_date := ExamUnit.exam_date unit;
             ExamUnit.exam_time := ExamUnit.exam_time unit;
             ExamUnit.exam_duration := ExamUnit.exam_duration unit |} ];
      payment := payment t;
      result := result t |}, id).

(** INSERT INTO payment (applicant_id, fee_amount, payment_status,
    payment_datetime) VALUES (...): created_at takes the store's clock. *)
Definition insert_payment (db_now : Z) (data : PaymentCreate.t) (t : Tables)
    : Tables * Z :=
  let id := next_row_id (map Payment.payment_id (payment t)) in
  ({| exam_center := exam_center t;
      exam_units := exam_units t;
      payment :=
        payment t ++
        [ {| Payment.payment_id := id;
             Payment.applicant_id := PaymentCreate.applicant_id data;
             Payment.fee_amount := PaymentCreate.fee_amount data;
             Payment.payment_status := PaymentCreate.payment_status data;
             Payment.created_at := db_now;
             Payment.payment_datetime := PaymentCreate.payment_datetime data |} ];
      result := result t |}, id).

(** SELECT * FROM payment WHERE payment_id = %s; fetchone() *)
Definition select_payment (id : Z) (t : Tables) : option Payment.t :=
  find (fun r => Payment.payment_id r =? id) (payment t).

(** A float parameter of a statement as the connector sends it: a NaN goes
    to the store as NULL. *)
Definition sql_float (x : option PyFloat) : option PyFloat :=
  match x with
  | Some NaN => None
  | _ => x
  end.

(** INSERT INTO result (applicant_id, unit_id, marks_obtained, status
    [, result_published]) VALUES (...): total_marks takes the default of its
    column, result_published stays NULL when the key is absent. *)
Definition insert_result (total_marks_default : Z) (data : ResultData)
    (t : Tables) : Tables * Z :=
  let id := next_row_id (map Result.result_id (result t)) in
  ({| exam_center := exam_center t;
      exam_units := exam_units t;
      payment := payment t;
      result :=
        result t ++
        [ {| Result.result_id := id;
             Result.applicant_id := ResultCreate.applicant_id (data_fields data);
             Result.unit_id := ResultCreate.unit_id (data_fields data);
             Result.marks_obtained :=
               sql_float (ResultCreate.marks_obtained (data_fields data));
             Result.status := ResultCreate.status (data_fields data);
             Result.total_marks := total_marks_default;
             Result.result_published := data_result_published data |} ] |}, id).

(** SELECT * FROM result WHERE result_id = %s; fetchone() *)
Definition select_result (id : Z) (t : Tables) : option Result.t :=
  find (fun r => Result.result_id r =? id) (result t).

(** SELECT * FROM result WHERE applicant_id = %s; fetchall() *)
Definition select_results_of (applicant : Z) (t : Tables) : list Result.t :=
  filter (fun r => Result.applicant_id r =? applicant) (result t).

Definition result_status_eqb (a b : ResultStatus.t) : bool :=
  match a, b with
  | ResultStatus.PASSED, ResultStatus.PASSED => true
  | ResultStatus.FAILED, ResultStatus.FAILED => true
  | ResultStatus.PENDING, ResultStatus.PENDING => true
  | _, _ => false
  end.

Section TableEndpoints.

Context `{Platform}.

Local Open Scope tables_scope.

(** What a handler that raised mysql.connector.Error answers, after the
    rollback; other exceptions leave the handler as they are. *)
Definition tables_outcome {A} (r : TablesConn * (PyError + A))
    : Tables * (Raised + A) :=
  match r with
  | (c, inr a) => (tables_close c, inr a)
  | (c, inl (MySqlError errno)) =>
      (tables_close (tables_rollback c), inl (HTTPExn (database_error errno)))
  | (c, inl TypeError) => (tables_close c, inl (PyExn TypeError))
  end.

(** get_exam_centers *)
Definition get_exam_centers (fp : FaultPlan) (t : Tables)
    : Raised + list ExamCenter.t :=
  match tables_query fp 0 exam_center (get_tables_connection t) with
  | (_, inl e) => inl (PyExn e)
  | (_, inr centers) => inr centers
  end.

(** get_exam_units *)
Definition get_exam_units (fp : FaultPlan) (t : Tables)
    : Raised + list ExamUnit.t :=
  match tables_query fp 0 exam_units (get_tables_connection t) with
  | (_, inl e) => inl (PyExn e)
  | (_, inr units) => inr units
  end.

(** get_results *)
Definition get_results (fp : FaultPlan) (t : Tables) (current_user : ApplicantRow)
    : Raised + list Result.t :=
  match tables_query fp 0 (select_results_of (info_applicant_id current_user))
          (get_tables_connection t) with
  | (_, inl e) => inl (PyExn e)
  | (_, inr results) => inr results
  end.

(** create_exam_center: the answer is the request with the new key in the
    place of center_id. *)
Definition create_exam_center (fp : FaultPlan) (t : Tables) (center : ExamCenter.t)
    : Tables * (Raised + ExamCenter.t) :=
  tables_outcome
    ((center_id <- tables_insert fp 0 (insert_exam_center center) ;;
      tables_commit fp 1 ;;;
      tables_ret {| ExamCenter.center_id := Some center_id;
                    ExamCenter.center_name := ExamCenter.center_name center;
                    ExamCenter.center_address := ExamCenter.center_address center |})
       (get_tables_connection t)).

(** create_exam_unit *)
Definition create_exam_unit (fp : FaultPlan) (t : Tables) (unit : ExamUnit.t)
    : Tables * (Raised + ExamUnit.t) :=
  tables_outcome
    ((unit_id <- tables_insert fp 0 (insert_exam_unit unit) ;;
      tables_commit fp 1 ;;;
      tables_ret {| ExamUnit.unit_id := Some unit_id;
                    ExamUnit.unit_code := ExamUnit.unit_code unit;
                    ExamUnit.center_id := ExamUnit.center_id unit;
                    ExamUnit.exam_date := ExamUnit.exam_date unit;
                    ExamUnit.exam_time := ExamUnit.exam_time unit;
                    ExamUnit.exam_duration := ExamUnit.exam_duration unit |})
       (get_tables_connection t)).

(** The dictionary make_payment inserts: the applicant is the signed-in one,
    the payment instant defaults to datetime.now(). *)
Definition payment_data (now : Z) (payment : PaymentCreate.t)
    (current_user : ApplicantRow) : PaymentCreate.t :=
  {| PaymentCreate.applicant_id := info_applicant_id current_user;
     PaymentCreate.fee_amount := PaymentCreate.fee_amount payment;
     PaymentCreate.payment_status := PaymentCreate.payment_status payment;
     PaymentCreate.payment_datetime :=
       match PaymentCreate.payment_datetime payment with
       | None => Some now
       | Some d => Some d
       end |}.

(** make_payment: [now] is datetime.now(), [db_now] the store's clock. *)
Definition make_payment (fp : FaultPlan) (now db_now : Z) (t : Tables)
    (payment : PaymentCreate.t) (current_user : ApplicantRow)
    : Tables * (Raised + option Payment.t) :=
  tables_outcome
    ((payment_id <- tables_insert fp 0
                      (insert_payment db_now (payment_data now payment current_user)) ;;
      tables_commit fp 1 ;;;
      new_payment <- tables_query fp 2 (select_payment payment_id) ;;
      tables_ret new_payment)
       (get_tables_connection t)).

(** The dictionary create_result inserts: a pending status with marks is
    settled against 32, and a settled status dates the publication. *)
Definition result_data (now : Z) (result : ResultCreate.t) : ResultData :=
  let status :=
    match ResultCreate.marks_obtained result with
    | Some marks =>
        if result_status_eqb (ResultCreate.status result) ResultStatus.PENDING
        then (if float_ge marks 32 then ResultStatus.PASSED
              else ResultStatus.FAILED)
        else ResultCreate.status result
    | None => ResultCreate.status result
    end in
  {| data_fields :=
       {| ResultCreate.applicant_id := ResultCreate.applicant_id result;
          ResultCreate.unit_id := ResultCreate.unit_id result;
          ResultCreate.marks_obtained := ResultCreate.marks_obtained result;
          ResultCreate.status := status |};
     data_result_published :=
       if result_status_eqb status ResultStatus.PASSED
          || result_status_eqb status ResultStatus.FAILED
       then Some now else None |}.

(** create_result: [total_marks_default] is the default of the total_marks
    column. *)
Definition create_result (fp : FaultPlan) (now total_marks_default : Z)
    (t : Tables) (result : ResultCreate.t)
    : Tables * (Raised + option Result.t) :=
  tables_outcome
    ((result_id <- tables_insert fp 0
                     (insert_result total_marks_default (result_data now result)) ;;
      tables_commit fp 1 ;;;
      new_result <- tables_query fp 2 (select_result result_id) ;;
      tables_ret new_result)
       (get_tables_connection t)).

End TableEndpoints.

(** The card create_admit_card inserts into [db] for [request]. *)
Definition issued_card (db_now : Z) (db : DB) (request : AdmitCardCreate)
    : AdmitCard :=
  {| card_request := request;
     exam_roll := py_or (select_max_roll db) ROLL_FLOOR + 1;
     issued_at := db_now;
     applicant_photo := None |}.


(** The card a call for [request] inserts under [roll]. *)
Definition card_with_roll (db_now : Z) (request : AdmitCardCreate) (roll : Z)
    : AdmitCard :=
  {| card_request := request; exam_roll := roll;
     issued_at := db_now; applicant_photo := None |}.

(** A call that has read its roll and is about to insert. *)
Definition allocated (request : AdmitCardCreate) (roll : Z) : Call :=
  {| call_request := request; call_phase := Allocated roll |}.

(** [db] with one more card. *)
Definition with_card (db : DB) (card : AdmitCard) : DB :=
  {| applicant_info := applicant_info db;
     applicant_login := applicant_login db;
     admit_card := admit_card db ++ [card] |}.

(** ** More concrete data *)

(** The plan in which statement [k] fails with [errno] and no other does. *)
Definition fail_at (k : nat) (errno : Z) : FaultPlan :=
  fun i => if Nat.eqb i k then Some errno else None.

Definition alice_row : ApplicantRow :=
  {| info_applicant_id := 1; info_fields := alice;
     created_at := 100; updated_at := 100 |}.

(** The store with Alice and her card, no photo yet. *)
Definition db_alice_card : DB :=
  {| applicant_info := applicant_info db_alice;
     applicant_login := applicant_login db_alice;
     admit_card :=
       [ {| card_request := card_for 1 1; exam_roll := 220431;
            issued_at := 150; applicant_photo := None |} ] |}.

Definition example_center : ExamCenter.t :=
  {| ExamCenter.center_id := Some 77;
     ExamCenter.center_name := "Main Hall";
     ExamCenter.center_address := "Dhaka" |}%string.

Definition example_unit : ExamUnit.t :=
  {| ExamUnit.unit_id := None;
     ExamUnit.unit_code := "A";
     ExamUnit.center_id := 1;
     ExamUnit.exam_date := 20000;
     ExamUnit.exam_time := "10:00";
     ExamUnit.exam_duration := Some 60 |}%string.

(** One center, one payment and one result on file. *)
Definition example_tables : Tables :=
  {| exam_center :=
       [ {| ExamCenter.center_id := Some 1;
            ExamCenter.center_name := "North Campus";
            ExamCenter.center_address := "Uttara" |} ]%string;
     exam_units := [];
     payment :=
       [ {| Payment.payment_id := 4; Payment.applicant_id := 2;
            Payment.fee_amount := Finite (500 # 1);
            Payment.payment_status := PaymentStatus.PAID;
            Payment.created_at := 90; Payment.payment_datetime := Some 90 |} ];
     result :=
       [ {| Result.result_id := 3; Result.applicant_id := 1; Result.unit_id := 2;
            Result.marks_obtained := None;
            Result.status := ResultStatus.PENDING;
            Result.total_marks := 80; Result.result_published := None |} ] |}.

(** A payment request that names applicant 99 and no payment instant. *)
Definition example_payment : PaymentCreate.t :=
  {| PaymentCreate.applicant_id := 99;
     PaymentCreate.fee_amount := Finite (1000 # 1);
     PaymentCreate.payment_status := PaymentStatus.PENDING;
     PaymentCreate.payment_datetime := None |}.

(** A pending result for applicant 1 with 40 marks. *)
Definition example_result : ResultCreate.t :=
  {| ResultCreate.applicant_id := 1;
     ResultCreate.unit_id := 1;
     ResultCreate.marks_obtained := Some (Finite (40 # 1));
     ResultCreate.status := ResultStatus.PENDING |}.

(** * Properties *)

Section SessionManager.

Context `{Platform}.

(** ** Lookups *)

Lemma select_login_email (e : string) (db : DB) (u : LoginRow) :
  select_login e db = Some u -> login_email u = e.
Proof.
  unfold select_login. intros Hf.
  apply find_some in Hf. destruct Hf as [_ Heq].
  now apply String.eqb_eq in Heq.
Qed.

Lemma select_info_email (e : string) (db : DB) (row : ApplicantRow) :
  select_info e db = Some row -> email (info_fields row) = e.
Proof.
  unfold select_info. intros Hf.
  apply find_some in Hf. destruct Hf as [_ Heq].
  now apply String.eqb_eq in Heq.
Qed.

Lemma select_info_touched (now : Z) (e e' : string) (db : DB) :
  select_info e' (touched now e db) = select_info e' db.
Proof. reflexivity. Qed.

Lemma select_login_touched (now : Z) (e : string) (db : DB) (u : LoginRow) :
  select_login e db = Some u ->
  select_login e (touched now e db) =
    Some {| login_email := login_email u;
            password_hash := password_hash u;
            last_login := Some now |}.
Proof.
  unfold select_login, touched, update_last_login. simpl.
  induction (applicant_login db) as [|r rows IH]; simpl; [discriminate|].
  destruct (String.eqb (login_email r) e) eqn:Hr; simpl.
  - rewrite Hr. intros Hu. now inversion Hu.
  - rewrite Hr. exact IH.
Qed.

Lemma verify_password_true (p h : string) :
  verify_password p h = true <-> h = get_password_hash p.
Proof.
  unfold verify_password. rewrite String.eqb_eq. split; congruence.
Qed.

Lemma verify_password_false (p h : string) :
  verify_password p h = false <-> get_password_hash p <> h.
Proof.
  unfold verify_password. apply String.eqb_neq.
Qed.

(** ** authenticate_user, case by case *)

Lemma authenticate_unknown_email (fp : FaultPlan) (db_now : Z) (db : DB)
    (e p : string) :
  fp 0%nat = None ->
  select_login e db = None ->
  authenticate_user fp db_now db e p = (db, inr AuthFalse).
Proof.
  intros Hfp Hnone.
  unfold authenticate_user, authenticate_user_body, bind, query.
  simpl. rewrite Hfp, Hnone. reflexivity.
Qed.

Lemma authenticate_wrong_password (fp : FaultPlan) (db_now : Z) (db : DB)
    (e p : string) (u : LoginRow) :
  fp 0%nat = None ->
  select_login e db = Some u ->
  get_password_hash p <> password_hash u ->
  authenticate_user fp db_now db e p = (db, inr AuthFalse).
Proof.
  intros Hfp Hu Hne.
  apply verify_password_false in Hne.
  unfold authenticate_user, authenticate_user_body, bind, query.
  simpl. rewrite Hfp, Hu, Hne. reflexivity.
Qed.

Lemma authenticate_correct_password (db_now : Z) (db : DB) (e p : string)
    (u : LoginRow) :
  select_login e db = Some u ->
  password_hash u = get_password_hash p ->
  authenticate_user no_faults db_now db e p =
    (touched db_now e db, inr (AuthUser (select_info e db))).
Proof.
  intros Hu Hh.
  apply verify_password_true in Hh.
  unfold authenticate_user, authenticate_user_body, bind, query, execute, commit.
  simpl. rewrite Hu, Hh. reflexivity.
Qed.

(** ** The claims on authentication *)

(** C6. An authentication that fails because the email has no credential and
    one that fails because the digest of the password differs from the stored
    one are not told apart: authenticate_user returns False in both cases, the
    endpoint leaves with one and the same response (its "Incorrect email or
    password" error, as the endpoint's handler re-raises it), and the store is
    not changed. *)
Theorem authenticate_failures_indistinguishable (fp : FaultPlan)
    (db_now utcnow : Z) (db : DB) (e p : string) :
  fp 0%nat = None ->
  select_login e db = None \/
  (exists u, select_login e db = Some u /\
             get_password_hash p <> password_hash u) ->
  authenticate_user fp db_now db e p = (db, inr AuthFalse) /\
  login_for_access_token fp db_now utcnow db e p =
    (db, inl (login_error (HTTPExn incorrect_email_or_password))).
Proof.
  intros Hfp Hcase.
  assert (Hauth : authenticate_user fp db_now db e p = (db, inr AuthFalse)).
  { destruct Hcase as [Hnone | [u [Hu Hne]]].
    - now apply authenticate_unknown_email.
    - now apply authenticate_wrong_password with (u := u). }
  split; [exact Hauth|].
  unfold login_for_access_token. rewrite Hauth. reflexivity.
Qed.

(** C7. For a registered email (a credential and an applicant_info row) and
    the password whose digest is stored, the endpoint returns a bearer token,
    and get_current_user on that token at any instant before its expiry
    returns an applicant whose email is the authenticated one. *)
Theorem authenticate_then_resolve (db_now utcnow now : Z) (db : DB)
    (e p : string) (u : LoginRow) (row : ApplicantRow) :
  select_login e db = Some u ->
  password_hash u = get_password_hash p ->
  select_info e db = Some row ->
  now < utcnow + timedelta_minutes ACCESS_TOKEN_EXPIRE_MINUTES ->
  exists db' token user,
    login_for_access_token no_faults db_now utcnow db e p =
      (db', inr {| access_token := token; token_type := "bearer" |}) /\
    get_current_user no_faults now db' token = inr user /\
    email (info_fields user) = e.
Proof.
  intros Hu Hh Hrow Hnow.
  pose proof (select_info_email _ _ _ Hrow) as Hemail.
  exists (touched db_now e db).
  exists (create_access_token utcnow {| sub := Some e; exp := None |}
            (Some (timedelta_minutes ACCESS_TOKEN_EXPIRE_MINUTES))).
  exists row. split; [|split]; [| |exact Hemail].
  - unfold login_for_access_token.
    rewrite (authenticate_correct_password db_now db e p u Hu Hh), Hrow.
    rewrite Hemail. reflexivity.
  - unfold get_current_user, create_access_token, jwt_encode, jwt_decode.
    cbn [truthy_delta]. change (timedelta_minutes ACCESS_TOKEN_EXPIRE_MINUTES =? 0)
      with false. cbn [negb sub exp].
    rewrite String.eqb_refl.
    destruct (utcnow + timedelta_minutes ACCESS_TOKEN_EXPIRE_MINUTES <=? now)
      eqn:Hle; [apply Z.leb_le in Hle; lia|].
    unfold query, no_faults, get_db_connection. cbn [working sub].
    rewrite select_info_touched, Hrow. reflexivity.
Qed.
(** C8. A token issued for subject [e] with expiry instant [expiry]:
    get_current_user returns the applicant when called before [expiry] and the
    subject has an applicant_info row; at or after [expiry] the decoder raises
    ExpiredSignatureError and the call fails; a token whose signature is not
    the one of its claims, or that is no JWS, is refused by the decoder
    (InvalidSignatureError, DecodeError) and the call fails; and a subject
    with no applicant_info row fails. Each failure is the 401
    credentials_exception. *)
Theorem resolve_outcomes (now : Z) (db : DB) (e : string) (expiry : Z) :
  let token := jwt_encode {| sub := Some e; exp := Some expiry |} SECRET_KEY in
  (now < expiry ->
   forall row, select_info e db = Some row ->
     get_current_user no_faults now db token = inr row) /\
  (expiry <= now ->
   forall fp,
     jwt_decode token SECRET_KEY now = inl ExpiredSignatureError /\
     get_current_user fp now db token = inl (HTTPExn credentials_exception)) /\
  (forall fp claims signature,
     signature <> hs256 SECRET_KEY claims ->
     jwt_decode (Jws claims signature) SECRET_KEY now = inl InvalidSignatureError /\
     get_current_user fp now db (Jws claims signature) =
       inl (HTTPExn credentials_exception)) /\
  (forall fp s,
     jwt_decode (Opaque s) SECRET_KEY now = inl DecodeError /\
     get_current_user fp now db (Opaque s) = inl (HTTPExn credentials_exception)) /\
  (now < expiry ->
   select_info e db = None ->
   get_current_user no_faults now db token = inl (HTTPExn credentials_exception)).
Proof.
  cbv zeta. unfold get_current_user, jwt_encode, jwt_decode.
  rewrite String.eqb_refl. cbn [exp].
  split; [|split; [|split; [|split]]].
  - intros Hlt row Hrow.
    destruct (expiry <=? now) eqn:Hle; [apply Z.leb_le in Hle; lia|].
    unfold query, no_faults, get_db_connection. cbn [working sub].
    now rewrite Hrow.
  - intros Hle fp. apply Z.leb_le in Hle. now rewrite Hle.
  - intros fp claims signature Hsig.
    apply String.eqb_neq in Hsig. now rewrite Hsig.
  - intros fp s. split; reflexivity.
  - intros Hlt Hnone.
    destruct (expiry <=? now) eqn:Hle; [apply Z.leb_le in Hle; lia|].
    unfold query, no_faults, get_db_connection. cbn [working sub].
    now rewrite Hnone.
Qed.

Lemma authenticate_user_row (fp : FaultPlan) (db_now : Z) (db db' : DB)
    (e p : string) (row : ApplicantRow) :
  authenticate_user fp db_now db e p = (db', inr (AuthUser (Some row))) ->
  email (info_fields row) = e.
Proof.
  unfold authenticate_user, authenticate_user_body, bind, query, execute,
    commit, ret.
  cbn [get_db_connection working committed].
  destruct (fp 0%nat); [discriminate|].
  destruct (select_login e db) as [u|]; [|discriminate].
  destruct (verify_password p (password_hash u)); cbn [negb]; [|discriminate].
  destruct (fp 1%nat); [discriminate|].
  cbn [update_last_login working committed].
  destruct (fp 2%nat); [discriminate|].
  cbn [working committed].
  destruct (fp 3%nat); [discriminate|].
  cbn [working committed close].
  intros Heq. inversion Heq as [[Hdb Hrow]].
  now apply select_info_email in Hrow.
Qed.

(** C9. Whenever the endpoint answers with a token, the token is the signed
    claim set whose subject is the email that authenticated and whose expiry
    is the instant of the call plus 30 minutes. *)
Theorem minted_token_subject_and_expiry (fp : FaultPlan) (db_now utcnow : Z)
    (db db' : DB) (e p : string) (resp : TokenResponse) :
  login_for_access_token fp db_now utcnow db e p = (db', inr resp) ->
  access_token resp =
    jwt_encode {| sub := Some e; exp := Some (utcnow + timedelta_minutes 30) |}
               SECRET_KEY /\
  token_type resp = "bearer"%string.
Proof.
  unfold login_for_access_token.
  destruct (authenticate_user fp db_now db e p) as [d [err|user]] eqn:Hauth;
    [discriminate|].
  destruct user as [|[row|]]; try discriminate.
  apply authenticate_user_row in Hauth.
  intros Heq. inversion Heq as [[Hdb Hresp]]. subst.
  split; reflexivity.
Qed.

(** C10. When the credential exists and the digest matches but the email has
    no applicant_info row, the endpoint answers with its failure response,
    and the store it leaves behind already holds the committed update of the
    credential's last_login. *)
Theorem login_failure_keeps_last_login (db_now utcnow : Z) (db : DB)
    (e p : string) (u : LoginRow) :
  select_login e db = Some u ->
  password_hash u = get_password_hash p ->
  select_info e db = None ->
  exists db',
    login_for_access_token no_faults db_now utcnow db e p =
      (db', inl (login_error (HTTPExn incorrect_email_or_password))) /\
    db' = touched db_now e db /\
    select_login e db' =
      Some {| login_email := login_email u;
              password_hash := password_hash u;
              last_login := Some db_now |}.
Proof.
  intros Hu Hh Hnone.
  exists (touched db_now e db). split; [|split].
  - unfold login_for_access_token.
    rewrite (authenticate_correct_password db_now db e p u Hu Hh), Hnone.
    reflexivity.
  - reflexivity.
  - now apply select_login_touched.
Qed.

End SessionManager.

Section Registration.

Context `{Platform}.

Lemma filter_absent_email (e : string) (rows : list LoginRow) :
  ~ In e (map login_email rows) ->
  filter (fun r => String.eqb (login_email r) e) rows = [].
Proof.
  induction rows as [|r rows IH]; simpl; [reflexivity|].
  intros Hnot.
  destruct (String.eqb (login_email r) e) eqn:Hr.
  - apply String.eqb_eq in Hr. exfalso. apply Hnot. now left.
  - apply IH. intros Hin. apply Hnot. now right.
Qed.

(** In a store that honours one credential per email, an email that has a
    credential has exactly one. *)
Lemma unique_credential (e : string) (db : DB) :
  NoDup (map login_email (applicant_login db)) ->
  has_credential e db = true ->
  count_credentials e db = 1%nat.
Proof.
  unfold has_credential, count_credentials.
  induction (applicant_login db) as [|r rows IH]; simpl; [discriminate|].
  intros Hnd Hex. inversion Hnd as [|x l Hnotin Hnd']; subst.
  destruct (String.eqb (login_email r) e) eqn:Hr; simpl.
  - apply String.eqb_eq in Hr. subst e.
    now rewrite (filter_absent_email _ _ Hnotin).
  - simpl in Hex. now apply IH.
Qed.

Lemma register_applicant_cases (sch : Schema) (fp : FaultPlan) (db_now : Z)
    (db : DB) (applicant : ApplicantCreate) :
  (exists message,
     register_applicant sch fp db_now db applicant =
       (registered db_now db applicant, inr message)) \/
  (exists errno,
     register_applicant sch fp db_now db applicant =
       (db, inl (HTTPExn (register_error errno)))).
Proof.
  unfold register_applicant, register_body, bind, execute, commit, ret.
  cbn [get_db_connection working committed].
  destruct (fp 0%nat) as [e0|].
  { right. exists e0. reflexivity. }
  unfold insert_applicant_info.
  destruct (info_email_unique sch && _).
  { right. exists ER_DUP_ENTRY. reflexivity. }
  cbn [working committed].
  destruct (fp 1%nat) as [e1|].
  { right. exists e1. reflexivity. }
  unfold insert_applicant_login. cbn [applicant_login].
  destruct (login_email_unique sch && _).
  { right. exists ER_DUP_ENTRY. reflexivity. }
  cbn [working committed].
  destruct (fp 2%nat) as [e2|].
  { right. exists e2. reflexivity. }
  left. eexists. reflexivity.
Qed.

Lemma register_duplicate_email (sch : Schema) (fp : FaultPlan) (db_now : Z)
    (db : DB) (applicant : ApplicantCreate) :
  login_email_unique sch = true ->
  fp 0%nat = None ->
  fp 1%nat = None ->
  has_credential (email (base applicant)) db = true ->
  register_applicant sch fp db_now db applicant =
    (db, inl (HTTPExn (register_error ER_DUP_ENTRY))).
Proof.
  intros Hsch Hf0 Hf1 Hcred.
  unfold register_applicant, register_body, bind, execute, commit, ret.
  cbn [get_db_connection working committed].
  rewrite Hf0. unfold insert_applicant_info.
  destruct (info_email_unique sch && _); [reflexivity|].
  cbn [working committed]. rewrite Hf1.
  unfold insert_applicant_login. cbn [applicant_login].
  unfold has_credential in Hcred. rewrite Hsch, Hcred. reflexivity.
Qed.

Lemma find_new_row {A} (p : A -> bool) (l : list A) (x : A) :
  existsb p l = false -> p x = true -> find p (l ++ [x]) = Some x.
Proof.
  intros Hl Hx. induction l as [|a l IH]; cbn [app find existsb] in *.
  - now rewrite Hx.
  - apply orb_false_iff in Hl. destruct Hl as [Ha Hl].
    rewrite Ha. now apply IH.
Qed.

(** What a registration that went through establishes for an email that was
    new to both tables: the credential holds the digest of the password, and
    the applicant_info row holds the submitted fields. *)
Lemma registered_lookups (db_now : Z) (db : DB) (applicant : ApplicantCreate) :
  has_credential (email (base applicant)) db = false ->
  select_info (email (base applicant)) db = None ->
  select_login (email (base applicant)) (registered db_now db applicant) =
    Some {| login_email := email (base applicant);
            password_hash := get_password_hash (password applicant);
            last_login := None |} /\
  select_info (email (base applicant)) (registered db_now db applicant) =
    Some {| info_applicant_id := next_applicant_id (applicant_info db);
            info_fields := base applicant;
            created_at := db_now;
            updated_at := db_now |}.
Proof.
  unfold has_credential, select_info, select_login, registered.
  cbn [applicant_login applicant_info]. intros Hcred Hinfo. split.
  - apply find_new_row; [exact Hcred|]. cbn. apply String.eqb_refl.
  - apply find_new_row; [|cbn; apply String.eqb_refl].
    destruct (existsb _ (applicant_info db)) eqn:Hex; [|reflexivity].
    apply existsb_exists in Hex. destruct Hex as [r [Hin Hr]].
    eapply find_none in Hinfo; [|exact Hin]. cbn in Hinfo. congruence.
Qed.

(** The store of the examples is what Alice's registration leaves. *)
Lemma db_alice_registered :
  register_applicant (H := example_platform) strict_schema no_faults 100
    empty_db alice_create =
  (db_alice, inr "Applicant registered successfully"%string).
Proof. reflexivity. Qed.

(** C5. A registration either appends both the applicant_info row and the
    applicant_login row and answers with success, or answers with an error
    and leaves the store as it was; and when the email already has a
    credential (the store enforcing one credential per email and no statement
    failing for another reason), the answer is the 400 "Email already
    registered", the store is unchanged and the email keeps exactly one
    credential. *)
Theorem register_atomic_and_duplicate (sch : Schema) (fp : FaultPlan)
    (db_now : Z) (db : DB) (applicant : ApplicantCreate) :
  ((exists message,
      register_applicant sch fp db_now db applicant =
        (registered db_now db applicant, inr message)) \/
   (exists errno,
      register_applicant sch fp db_now db applicant =
        (db, inl (HTTPExn (register_error errno))))) /\
  (login_email_unique sch = true ->
   fp 0%nat = None ->
   fp 1%nat = None ->
   has_credential (email (base applicant)) db = true ->
   NoDup (map login_email (applicant_login db)) ->
   register_applicant sch fp db_now db applicant =
     (db, inl (HTTPExn {| status_code := 400;
                          detail := "Email already registered";
                          headers := [] |})) /\
   count_credentials (email (base applicant))
     (fst (register_applicant sch fp db_now db applicant)) = 1%nat).
Proof.
  split; [apply register_applicant_cases|].
  intros Hsch Hf0 Hf1 Hcred Hnd.
  rewrite (register_duplicate_email sch fp db_now db applicant Hsch Hf0 Hf1 Hcred).
  split; [reflexivity|].
  now apply unique_credential.
Qed.

End Registration.

Section Allocator.

Context `{Platform}.

(** ** MAX and the dense roll lists *)

Lemma sql_max_none (l : list Z) : sql_max l = None <-> l = [].
Proof.
  destruct l as [|x r]; simpl; [tauto|].
  destruct (sql_max r); split; discriminate.
Qed.

Lemma sql_max_some (l : list Z) (m : Z) :
  sql_max l = Some m -> In m l /\ Forall (fun x => x <= m) l.
Proof.
  revert m. induction l as [|x r IH]; simpl; [discriminate|].
  intros m. destruct (sql_max r) as [m'|] eqn:Hr.
  - intros Hm. inversion Hm; subst. destruct (IH m' eq_refl) as [Hin Hall].
    split.
    + destruct (Z.max_spec x m') as [[_ ->] | [_ ->]]; [now right | now left].
    + constructor; [lia|]. eapply Forall_impl; [|exact Hall].
      intros a Ha. simpl in Ha. lia.
  - intros Hm. inversion Hm; subst. apply sql_max_none in Hr. subst r.
    split; [now left|]. constructor; [lia|constructor].
Qed.

Lemma rolls_above_S (floor : Z) (n : nat) :
  rolls_above floor (S n) = rolls_above floor n ++ [floor + Z.of_nat (S n)].
Proof.
  unfold rolls_above. rewrite seq_S, map_app. reflexivity.
Qed.

Lemma in_rolls_above (floor : Z) (n : nat) (r : Z) :
  In r (rolls_above floor n) <-> floor + 1 <= r <= floor + Z.of_nat n.
Proof.
  unfold rolls_above. rewrite in_map_iff. split.
  - intros [i [Hr Hi]]. apply in_seq in Hi. lia.
  - intros Hr. exists (Z.to_nat (r - floor)). split; [lia|].
    apply in_seq. lia.
Qed.

Lemma NoDup_rolls_above (floor : Z) (n : nat) : NoDup (rolls_above floor n).
Proof.
  unfold rolls_above. apply NoDup_map_inv with (f := fun r => Z.to_nat (r - floor)).
  rewrite map_map.
  rewrite map_ext with (g := fun i : nat => i); [|intros a; lia].
  rewrite map_id. apply seq_NoDup.
Qed.

Lemma sql_max_rolls_above (floor : Z) (n : nat) :
  sql_max (rolls_above floor (S n)) = Some (floor + Z.of_nat (S n)).
Proof.
  destruct (sql_max (rolls_above floor (S n))) as [m|] eqn:Hm.
  - apply sql_max_some in Hm. destruct Hm as [Hin Hall].
    apply in_rolls_above in Hin.
    rewrite Forall_forall in Hall.
    assert (Htop : In (floor + Z.of_nat (S n)) (rolls_above floor (S n))).
    { apply in_rolls_above. lia. }
    apply Hall in Htop. f_equal. lia.
  - apply sql_max_none in Hm. rewrite rolls_above_S in Hm.
    now destruct (rolls_above floor n).
Qed.

Lemma roll_taken_iff (roll : Z) (db : DB) :
  roll_taken roll db = true <-> In roll (map exam_roll (admit_card db)).
Proof.
  unfold roll_taken. rewrite existsb_exists, in_map_iff. split.
  - intros [c [Hin Heq]]. apply Z.eqb_eq in Heq. now exists c.
  - intros [c [Heq Hin]]. exists c. split; [exact Hin|]. now apply Z.eqb_eq.
Qed.

Lemma find_last {A} (p : A -> bool) (l : list A) (x : A) :
  p x = true -> exists y, find p (l ++ [x]) = Some y.
Proof.
  intros Hx. induction l as [|a l IH]; simpl.
  - rewrite Hx. now exists x.
  - destruct (p a); [now exists a | exact IH].
Qed.

(** ** The two steps of create_admit_card *)

Lemma generate_exam_roll_value (fp : FaultPlan) (db : DB) :
  fp 0%nat = None ->
  generate_exam_roll fp (get_db_connection db) =
    (get_db_connection db, inr (py_or (select_max_roll db) ROLL_FLOOR + 1)).
Proof.
  intros Hfp. unfold generate_exam_roll, bind, query, ret. now rewrite Hfp.
Qed.

(** With no card on file the new roll is floor + 1, and with a maximum other
    than 0 it is the maximum plus one. *)
Lemma py_or_max_roll (db : DB) :
  (admit_card db = [] -> py_or (select_max_roll db) ROLL_FLOOR + 1 = 220431) /\
  (forall m, select_max_roll db = Some m -> m <> 0 ->
             py_or (select_max_roll db) ROLL_FLOOR + 1 = m + 1).
Proof.
  split.
  - intros Hempty. unfold select_max_roll. rewrite Hempty. reflexivity.
  - intros m Hm Hnz. rewrite Hm. unfold py_or.
    apply Z.eqb_neq in Hnz. now rewrite Hnz.
Qed.

Lemma dense_next_roll (db : DB) :
  rolls_dense db ->
  py_or (select_max_roll db) ROLL_FLOOR + 1 =
    ROLL_FLOOR + Z.of_nat (S (List.length (admit_card db))).
Proof.
  unfold rolls_dense, select_max_roll. intros ->.
  destruct (List.length (admit_card db)) as [|n].
  - reflexivity.
  - rewrite sql_max_rolls_above. unfold py_or.
    destruct (ROLL_FLOOR + Z.of_nat (S n) =? 0) eqn:Hz.
    + apply Z.eqb_eq in Hz. unfold ROLL_FLOOR in Hz. lia.
    + lia.
Qed.

(** The insert is refused: the call fails at once, nothing is kept. *)
Lemma store_refused (sch : Schema) (fp : FaultPlan) (db_now : Z) (db : DB)
    (data : AdmitCardCreate) (roll : Z) :
  fp 1%nat = None ->
  insert_admit_card sch db_now data roll db = inl (MySqlError ER_DUP_ENTRY) ->
  admit_card_outcome
    (store_admit_card sch fp db_now data roll (get_db_connection db)) =
  (db, inl (HTTPExn (database_error ER_DUP_ENTRY))).
Proof.
  intros Hfp Hins.
  unfold store_admit_card, bind, execute.
  cbn [get_db_connection working committed]. now rewrite Hfp, Hins.
Qed.

(** The insert goes through: the card is committed and handed back. *)
Lemma store_accepted (sch : Schema) (db_now : Z) (db db' : DB)
    (data : AdmitCardCreate) (roll : Z) :
  insert_admit_card sch db_now data roll db = inr db' ->
  admit_card db' =
    admit_card db ++
    [ {| card_request := data; exam_roll := roll;
         issued_at := db_now; applicant_photo := None |} ] /\
  exists card,
    admit_card_outcome
      (store_admit_card sch no_faults db_now data roll (get_db_connection db)) =
    (db', inr card).
Proof.
  intros Hins.
  assert (Hcards : admit_card db' =
    admit_card db ++
    [ {| card_request := data; exam_roll := roll;
         issued_at := db_now; applicant_photo := None |} ]).
  { unfold insert_admit_card in Hins.
    destruct (_ || _); [discriminate|]. inversion Hins. reflexivity. }
  split; [exact Hcards|].
  unfold store_admit_card, bind, execute, commit, query, no_faults.
  cbn [get_db_connection working committed]. rewrite Hins.
  cbn [working committed]. unfold select_card_by_roll. rewrite Hcards.
  destruct (find_last (fun r => exam_roll r =? roll) (admit_card db)
              {| card_request := data; exam_roll := roll;
                 issued_at := db_now; applicant_photo := None |})
    as [card Hcard].
  { cbn. apply Z.eqb_refl. }
  rewrite Hcard. exists (photo_to_base64 card). reflexivity.
Qed.

(** ** Interleaved calls *)

Lemma allocation_in_range_mono (k k' : nat) (c : Call) :
  (k <= k')%nat -> allocation_in_range k c -> allocation_in_range k' c.
Proof.
  unfold allocation_in_range. destruct (call_phase c); auto. lia.
Qed.

(** One step of one call keeps the rolls dense; the table grows by one card
    exactly when the call ends with a card. *)
Lemma step_call_dense (sch : Schema) (db_now : Z) (db db' : DB) (c c' : Call) :
  card_roll_unique sch = true ->
  rolls_dense db ->
  allocation_in_range (List.length (admit_card db)) c ->
  step_call sch no_faults db_now db c = (db', c') ->
  rolls_dense db' /\
  allocation_in_range (List.length (admit_card db')) c' /\
  (List.length (admit_card db) <= List.length (admit_card db'))%nat /\
  (List.length (admit_card db') + issued_count [c] =
   List.length (admit_card db) + issued_count [c'])%nat.
Proof.
  intros Hsch Hdense Hrange. unfold step_call.
  destruct c as [req ph]. cbn [call_phase call_request].
  destruct ph as [|r|resp].
  - rewrite generate_exam_roll_value by reflexivity.
    intros Heq. inversion Heq; subst. clear Heq.
    repeat split; auto.
    + unfold allocation_in_range. cbn [call_phase].
      rewrite (dense_next_roll _ Hdense). lia.
    + unfold allocation_in_range. cbn [call_phase].
      rewrite (dense_next_roll _ Hdense). lia.
  - destruct (insert_admit_card sch db_now req r db) as [e|db1] eqn:Hins.
    + assert (He : e = MySqlError ER_DUP_ENTRY).
      { unfold insert_admit_card in Hins.
        destruct (_ || _); [now inversion Hins|discriminate]. }
      subst e. rewrite (store_refused sch no_faults db_now db req r eq_refl Hins).
      intros Heq. inversion Heq; subst. clear Heq.
      repeat split; auto.
    + destruct (store_accepted sch db_now db db1 req r Hins) as [Hcards [card Hout]].
      rewrite Hout. intros Heq. inversion Heq; subst. clear Heq.
      assert (Hfree : roll_taken r db = false).
      { unfold insert_admit_card in Hins. unfold roll_taken.
        rewrite Hsch in Hins. cbn [andb] in Hins.
        destruct (existsb _ (admit_card db)); [discriminate|reflexivity]. }
      assert (Hr : r = ROLL_FLOOR + Z.of_nat (S (List.length (admit_card db)))).
      { unfold allocation_in_range in Hrange. cbn [call_phase] in Hrange.
        assert (Hnot : ~ In r (map exam_roll (admit_card db))).
        { intros Hin. apply roll_taken_iff in Hin. congruence. }
        rewrite Hdense in Hnot. rewrite in_rolls_above in Hnot. lia. }
      repeat split.
      * unfold rolls_dense. rewrite Hcards, map_app, length_app, Hdense.
        cbn [map exam_roll List.length].
        rewrite Nat.add_1_r, rolls_above_S. now rewrite Hr.
      * rewrite Hcards, length_app. cbn. lia.
      * rewrite Hcards, length_app. cbn. lia.
  - intros Heq. inversion Heq; subst. repeat split; auto.
Qed.

Lemma issued_count_cons (c : Call) (calls : list Call) :
  issued_count (c :: calls) = (issued_count [c] + issued_count calls)%nat.
Proof.
  unfold issued_count. cbn [filter]. destruct (is_issued c); reflexivity.
Qed.

Lemma step_at_dense (sch : Schema) (db_now : Z) (i : nat) (db db' : DB)
    (calls calls' : list Call) :
  card_roll_unique sch = true ->
  rolls_dense db ->
  Forall (allocation_in_range (List.length (admit_card db))) calls ->
  step_at sch no_faults db_now i db calls = (db', calls') ->
  rolls_dense db' /\
  Forall (allocation_in_range (List.length (admit_card db'))) calls' /\
  (List.length (admit_card db) <= List.length (admit_card db'))%nat /\
  (List.length (admit_card db') + issued_count calls =
   List.length (admit_card db) + issued_count calls')%nat /\
  List.length calls' = List.length calls.
Proof.
  intros Hsch. revert i db' calls'.
  induction calls as [|c rest IH]; intros i db' calls' Hdense Hall; cbn [step_at].
  - intros Heq. inversion Heq; subst. repeat split; auto using Forall_nil.
  - inversion Hall as [|x l Hc Hrest]; subst.
    destruct i as [|j].
    + destruct (step_call sch no_faults db_now db c) as [db1 c1] eqn:Hstep.
      intros Heq. inversion Heq; subst. clear Heq.
      destruct (step_call_dense sch db_now db db' c c1 Hsch Hdense Hc Hstep)
        as [Hd [Hr [Hle Hcount]]].
      repeat split; auto.
      * constructor; [exact Hr|].
        eapply Forall_impl; [|exact Hrest].
        intros a. now apply allocation_in_range_mono.
      * rewrite (issued_count_cons c rest), (issued_count_cons c1 rest). lia.
    + destruct (step_at sch no_faults db_now j db rest) as [db1 rest1] eqn:Hstep.
      intros Heq. inversion Heq; subst. clear Heq.
      destruct (IH j db' rest1 Hdense Hrest Hstep)
        as [Hd [Hr [Hle [Hcount Hlen]]]].
      repeat split; auto.
      * constructor; [|exact Hr].
        now apply allocation_in_range_mono with (k := List.length (admit_card db)).
      * rewrite (issued_count_cons c rest), (issued_count_cons c rest1). lia.
      * cbn. now rewrite Hlen.
Qed.

Lemma run_dense (sch : Schema) (db_now : Z) (schedule : list nat) (db db' : DB)
    (calls calls' : list Call) :
  card_roll_unique sch = true ->
  rolls_dense db ->
  Forall (allocation_in_range (List.length (admit_card db))) calls ->
  run sch no_faults db_now schedule db calls = (db', calls') ->
  rolls_dense db' /\
  (List.length (admit_card db') + issued_count calls =
   List.length (admit_card db) + issued_count calls')%nat /\
  List.length calls' = List.length calls.
Proof.
  intros Hsch. revert db calls.
  induction schedule as [|i later IH]; intros db calls Hdense Hall; cbn [run].
  - intros Heq. inversion Heq; subst. repeat split; auto.
  - destruct (step_at sch no_faults db_now i db calls) as [db1 calls1] eqn:Hstep.
    destruct (step_at_dense sch db_now i db db1 calls calls1 Hsch Hdense Hall Hstep)
      as [Hd [Hr [Hle [Hcount Hlen]]]].
    intros Hrun.
    destruct (IH db1 calls1 Hd Hr Hrun) as [Hd' [Hcount' Hlen']].
    repeat split; auto; lia.
Qed.

(** ** Calls served one after another *)

Lemma step_at_app (sch : Schema) (fp : FaultPlan) (db_now : Z) (db : DB)
    (pre rest : list Call) (c : Call) :
  step_at sch fp db_now (List.length pre) db (pre ++ c :: rest) =
    (fst (step_call sch fp db_now db c),
     pre ++ snd (step_call sch fp db_now db c) :: rest).
Proof.
  induction pre as [|a pre IH]; cbn [List.length app step_at].
  - now destruct (step_call sch fp db_now db c).
  - now rewrite IH.
Qed.

Lemma insert_admit_card_free (sch : Schema) (db_now : Z) (db : DB)
    (data : AdmitCardCreate) (roll : Z) :
  roll_taken roll db = false ->
  holds_card (applicant_id data) db = false ->
  exists db',
    insert_admit_card sch db_now data roll db = inr db'.
Proof.
  unfold roll_taken, holds_card, insert_admit_card. intros -> ->.
  rewrite !andb_false_r. cbn [orb]. eexists. reflexivity.
Qed.

Lemma holds_card_after_insert (a : Z) (db db' : DB) (card : AdmitCard) :
  admit_card db' = admit_card db ++ [card] ->
  holds_card a db' =
    holds_card a db || (applicant_id (card_request card) =? a).
Proof.
  unfold holds_card. intros ->. rewrite existsb_app. cbn [existsb].
  now rewrite orb_false_r.
Qed.

Lemma one_by_one_dense (sch : Schema) (db_now : Z)
    (requests : list AdmitCardCreate) :
  forall (pre : list Call) (db db' : DB) (calls' : list Call),
    rolls_dense db ->
    (forall r, In r requests -> holds_card (applicant_id r) db = false) ->
    NoDup (map applicant_id requests) ->
    run sch no_faults db_now
        (one_by_one (List.length pre) (List.length requests)) db
        (pre ++ launch requests) = (db', calls') ->
    rolls_dense db' /\
    List.length (admit_card db') =
      (List.length (admit_card db) + List.length requests)%nat.
Proof.
  induction requests as [|req rest IH];
    intros pre db db' calls' Hdense Hfree Hnd.
  - cbn [List.length one_by_one run]. intros Heq. inversion Heq; subst.
    split; [exact Hdense | lia].
  - cbn [List.length one_by_one run launch map].
    rewrite step_at_app. unfold step_call at 1 2. cbn [call_phase call_request].
    rewrite generate_exam_roll_value by reflexivity. cbn [fst snd].
    rewrite step_at_app. unfold step_call at 1 2. cbn [call_phase call_request].
    set (roll := py_or (select_max_roll db) ROLL_FLOOR + 1).
    assert (Hroll : roll = ROLL_FLOOR + Z.of_nat (S (List.length (admit_card db))))
      by (apply dense_next_roll; exact Hdense).
    assert (Hnew : roll_taken roll db = false).
    { destruct (roll_taken roll db) eqn:Ht; [|reflexivity].
      apply roll_taken_iff in Ht. rewrite Hdense in Ht.
      apply in_rolls_above in Ht. lia. }
    destruct (insert_admit_card_free sch db_now db req roll Hnew
                (Hfree req (or_introl eq_refl))) as [db1 Hins].
    destruct (store_accepted sch db_now db db1 req roll Hins)
      as [Hcards [card Hout]].
    rewrite Hout. cbn [fst snd].
    inversion Hnd as [|x l Hnotin Hnd']; subst.
    change (pre ++ {| call_request := req; call_phase := Finished (inr card) |}
               :: map (fun r => {| call_request := r; call_phase := Pending |}) rest)
      with (pre ++ [{| call_request := req; call_phase := Finished (inr card) |}]
               ++ launch rest).
    rewrite app_assoc.
    replace (S (List.length pre))
      with (List.length
              (pre ++ [{| call_request := req; call_phase := Finished (inr card) |}]))
      by (rewrite length_app; cbn; lia).
    intros Hrun. apply IH in Hrun; [| | |exact Hnd'].
    + destruct Hrun as [Hd Hlen]. split; [exact Hd|].
      rewrite Hlen, Hcards, length_app. cbn. lia.
    + unfold rolls_dense. rewrite Hcards, map_app, length_app, Hdense.
      cbn [map exam_roll List.length].
      rewrite Nat.add_1_r, rolls_above_S. now rewrite Hroll.
    + intros r Hr. rewrite (holds_card_after_insert _ db db1 _ Hcards).
      rewrite (Hfree r (or_intror Hr)). cbn [orb card_request].
      apply Z.eqb_neq. intros Heq. apply Hnotin.
      rewrite Heq. now apply in_map.
Qed.

Lemma dense_consecutive (n : nat) (db : DB) :
  rolls_dense db ->
  List.length (admit_card db) = n ->
  consecutive_rolls n db.
Proof.
  unfold rolls_dense, consecutive_rolls. intros Hdense Hlen.
  rewrite Hdense, Hlen. split; [reflexivity|]. split.
  - apply NoDup_rolls_above.
  - intros r. apply in_rolls_above.
Qed.

Lemma create_admit_card_unfold (sch : Schema) (fp : FaultPlan) (db_now : Z)
    (db : DB) (request : AdmitCardCreate) :
  create_admit_card sch fp db_now db request =
    match generate_exam_roll fp (get_db_connection db) with
    | (cn, inl e) => admit_card_outcome (cn, inl e)
    | (cn, inr roll) =>
        admit_card_outcome (store_admit_card sch fp db_now request roll cn)
    end.
Proof.
  unfold create_admit_card, create_admit_card_body, bind.
  now destruct (generate_exam_roll fp (get_db_connection db)) as [cn [e|roll]].
Qed.

(** create_admit_card is its two steps run back to back. *)
Lemma create_admit_card_two_steps (sch : Schema) (fp : FaultPlan) (db_now : Z)
    (db : DB) (request : AdmitCardCreate) :
  run sch fp db_now [0; 0]%nat db (launch [request]) =
    (fst (create_admit_card sch fp db_now db request),
     [ {| call_request := request;
          call_phase :=
            Finished (snd (create_admit_card sch fp db_now db request)) |} ]).
Proof.
  rewrite create_admit_card_unfold.
  cbn [run launch map step_at]. unfold step_call at 1.
  cbn [call_phase call_request].
  destruct (generate_exam_roll fp (get_db_connection db)) as [cn [e|roll]] eqn:Hgen.
  - destruct (admit_card_outcome (cn, inl e)) as [db1 r]. reflexivity.
  - assert (Hcn : cn = get_db_connection db).
    { unfold generate_exam_roll, bind, query, ret in Hgen.
      destruct (fp 0%nat); inversion Hgen; reflexivity. }
    subst cn. cbn [step_at]. unfold step_call. cbn [call_phase call_request].
    destruct (admit_card_outcome _) as [db1 r]. reflexivity.
Qed.

Lemma photo_to_base64_roll (card : AdmitCard) :
  exam_roll (photo_to_base64 card) = exam_roll card.
Proof.
  unfold photo_to_base64. destruct (applicant_photo card) as [photo|];
    [|reflexivity].
  now destruct (String.eqb photo EmptyString).
Qed.

(** The roll on a card the handler returns: the maximum read at the start,
    defaulted by [or], plus one. *)
Lemma issued_card_roll (sch : Schema) (fp : FaultPlan) (db_now : Z)
    (db db' : DB) (request : AdmitCardCreate) (card : AdmitCard) :
  create_admit_card sch fp db_now db request = (db', inr card) ->
  exam_roll card = py_or (select_max_roll db) ROLL_FLOOR + 1.
Proof.
  rewrite create_admit_card_unfold.
  unfold generate_exam_roll, bind, query, ret.
  cbn [get_db_connection working].
  destruct (fp 0%nat); [discriminate|].
  unfold store_admit_card, bind, execute, commit, query, ret, raise.
  cbn [get_db_connection working committed].
  destruct (fp 1%nat); [discriminate|].
  destruct (insert_admit_card _ _ _ _ _) as [e|db1];
    [destruct e; discriminate|].
  cbn [working committed].
  destruct (fp 2%nat); [discriminate|].
  cbn [working committed].
  destruct (fp 3%nat); [discriminate|].
  destruct (select_card_by_roll _ db1) as [found|] eqn:Hfind; [|discriminate].
  cbn [admit_card_outcome close committed].
  intros Heq. inversion Heq; subst. rewrite photo_to_base64_roll.
  unfold select_card_by_roll in Hfind. apply find_some in Hfind.
  destruct Hfind as [_ Hroll]. now apply Z.eqb_eq in Hroll.
Qed.

Lemma issued_count_launch (requests : list AdmitCardCreate) :
  issued_count (launch requests) = 0%nat.
Proof.
  unfold issued_count, launch.
  induction requests as [|r rest IH]; [reflexivity|exact IH].
Qed.

(** ** The claims on the roll allocator *)

(** C1, as the code has it. From an empty admit_card table and with the roll
    column unique, every interleaving of the calls leaves cards whose rolls
    are floor + 1, floor + 2, ... without gap or repetition, one card per call
    that ended with a card and so at most one per call; a call that lost the
    race has ended with an error instead. Served one after another, calls for
    distinct applicants leave exactly one card each, whatever the schema. *)
Theorem interleaved_issuance (sch : Schema) (db_now : Z) (db0 : DB)
    (requests : list AdmitCardCreate) :
  admit_card db0 = [] ->
  (card_roll_unique sch = true ->
   forall schedule db' calls',
     run sch no_faults db_now schedule db0 (launch requests) = (db', calls') ->
     map exam_roll (admit_card db') =
       rolls_above ROLL_FLOOR (List.length (admit_card db')) /\
     NoDup (map exam_roll (admit_card db')) /\
     List.length (admit_card db') = issued_count calls' /\
     (issued_count calls' <= List.length requests)%nat) /\
  (NoDup (map applicant_id requests) ->
   forall db' calls',
     run sch no_faults db_now (one_by_one 0 (List.length requests)) db0
         (launch requests) = (db', calls') ->
     consecutive_rolls (List.length requests) db').
Proof.
  intros Hempty.
  assert (Hdense : rolls_dense db0) by (unfold rolls_dense; now rewrite Hempty).
  split.
  - intros Hsch schedule db' calls' Hrun.
    assert (Hall : Forall (allocation_in_range (List.length (admit_card db0)))
                          (launch requests)).
    { apply Forall_forall. intros c Hc. unfold launch in Hc.
      apply in_map_iff in Hc. destruct Hc as [r [<- _]]. exact I. }
    destruct (run_dense sch db_now schedule db0 db' (launch requests) calls'
                Hsch Hdense Hall Hrun) as [Hd [Hcount Hlen]].
    rewrite issued_count_launch, Hempty in Hcount. cbn [List.length] in Hcount.
    split; [exact Hd|]. split; [rewrite Hd; apply NoDup_rolls_above|].
    split; [lia|].
    unfold issued_count. etransitivity; [apply filter_length_le|].
    rewrite Hlen. unfold launch. now rewrite length_map.
  - intros Hnd db' calls' Hrun.
    destruct (one_by_one_dense sch db_now requests [] db0 db' calls' Hdense)
      as [Hd Hlen]; [| exact Hnd | exact Hrun |].
    + intros r _. unfold holds_card. now rewrite Hempty.
    + apply dense_consecutive; [exact Hd|].
      rewrite Hlen, Hempty. reflexivity.
Qed.

(** C3, as the code has it. A call whose insert finds its roll taken, the
    roll column being unique, is not retried: that step ends the call with
    the 500 "Database error" response and leaves the store as it was. *)
Theorem conflict_fails_without_retry (sch : Schema) (fp : FaultPlan)
    (db_now : Z) (db : DB) (request : AdmitCardCreate) (roll : Z) :
  card_roll_unique sch = true ->
  fp 1%nat = None ->
  roll_taken roll db = true ->
  step_call sch fp db_now db
    {| call_request := request; call_phase := Allocated roll |} =
  (db, {| call_request := request;
          call_phase :=
            Finished (inl (HTTPExn (database_error ER_DUP_ENTRY))) |}).
Proof.
  intros Hsch Hfp Htaken. unfold step_call. cbn [call_phase call_request].
  rewrite store_refused; [reflexivity | exact Hfp |].
  unfold insert_admit_card. unfold roll_taken in Htaken.
  now rewrite Hsch, Htaken.
Qed.

(** A second card for an applicant who holds one, the store enforcing one
    card per applicant: the insert is refused as a duplicate key and the
    handler answers with its 500 "Database error", the store unchanged. *)
Lemma second_card_refused (sch : Schema) (fp : FaultPlan) (db_now : Z) (db : DB)
    (request : AdmitCardCreate) :
  card_applicant_unique sch = true ->
  fp 0%nat = None ->
  fp 1%nat = None ->
  holds_card (applicant_id request) db = true ->
  create_admit_card sch fp db_now db request =
    (db, inl (HTTPExn (database_error ER_DUP_ENTRY))).
Proof.
  intros Hsch Hf0 Hf1 Hholds.
  unfold create_admit_card, create_admit_card_body. unfold bind at 1.
  rewrite generate_exam_roll_value by exact Hf0.
  apply store_refused; [exact Hf1|].
  unfold insert_admit_card. unfold holds_card in Hholds.
  rewrite Hsch, Hholds. cbn [andb]. now rewrite orb_true_r.
Qed.

(** C4 at a table with one card, for applicant 7. Asking a card for applicant
    7 again, for another unit: where the store enforces one card per
    applicant the answer is the 500 "Database error" of any refused insert,
    no duplicate-card error; where it does not, a second card is issued. The
    card on file is untouched either way. *)
Theorem second_card_for_applicant :
  holds_card 7 db_one_card = true /\
  create_admit_card strict_schema no_faults 60 db_one_card (card_for 7 2) =
    (db_one_card, inl (HTTPExn (database_error ER_DUP_ENTRY))) /\
  create_admit_card lax_schema no_faults 60 db_one_card (card_for 7 2) =
    ({| applicant_info := []; applicant_login := [];
        admit_card :=
          admit_card db_one_card ++
          [ {| card_request := card_for 7 2; exam_roll := 220432;
               issued_at := 60; applicant_photo := None |} ] |},
     inr {| card_request := card_for 7 2; exam_roll := 220432;
            issued_at := 60; applicant_photo := None |}).
Proof.
  split; [reflexivity|]. split; reflexivity.
Qed.

End Allocator.

(** * Further properties of the handlers *)

Section AllocatorFrame.

Context `{Platform}.

(** The roll computed from the maximum lies above every roll on file. *)
Lemma new_roll_above (rolls : list Z) (r : Z) :
  In r rolls -> r < py_or (sql_max rolls) ROLL_FLOOR + 1.
Proof.
  intros Hin. destruct (sql_max rolls) as [m|] eqn:Hm.
  - apply sql_max_some in Hm. destruct Hm as [_ Hall].
    rewrite Forall_forall in Hall. apply Hall in Hin.
    unfold py_or, ROLL_FLOOR. destruct (m =? 0) eqn:Hz.
    + apply Z.eqb_eq in Hz. lia.
    + lia.
  - apply sql_max_none in Hm. subst rolls. destruct Hin.
Qed.

Lemma new_roll_free (db : DB) :
  roll_taken (py_or (select_max_roll db) ROLL_FLOOR + 1) db = false.
Proof.
  destruct (roll_taken _ db) eqn:Ht; [|reflexivity].
  apply roll_taken_iff in Ht. apply new_roll_above in Ht.
  unfold select_max_roll in Ht. lia.
Qed.

Lemma insert_admit_card_inv (sch : Schema) (db_now : Z) (db db1 : DB)
    (request : AdmitCardCreate) (roll : Z) :
  insert_admit_card sch db_now request roll db = inr db1 ->
  db1 = with_card db {| card_request := request; exam_roll := roll;
                        issued_at := db_now; applicant_photo := None |}.
Proof.
  unfold insert_admit_card. destruct (_ || _); [discriminate|].
  intros Heq. now inversion Heq.
Qed.

Lemma select_new_card (db_now : Z) (db : DB) (request : AdmitCardCreate) :
  select_card_by_roll (exam_roll (issued_card db_now db request))
    (with_card db (issued_card db_now db request)) =
  Some (issued_card db_now db request).
Proof.
  unfold select_card_by_roll. cbn [admit_card with_card].
  apply find_new_row; [|cbn; apply Z.eqb_refl].
  exact (new_roll_free db).
Qed.

(** The three ways a call can end. *)
Lemma create_admit_card_cases (sch : Schema) (fp : FaultPlan) (db_now : Z)
    (db : DB) (request : AdmitCardCreate) :
  (exists errno,
     create_admit_card sch fp db_now db request =
       (db, inl (HTTPExn (database_error errno)))) \/
  create_admit_card sch fp db_now db request =
    (with_card db (issued_card db_now db request),
     inr (issued_card db_now db request)) \/
  (exists errno,
     fp 3%nat = Some errno /\
     create_admit_card sch fp db_now db request =
       (with_card db (issued_card db_now db request),
        inl (HTTPExn (database_error errno)))).
Proof.
  rewrite create_admit_card_unfold.
  unfold generate_exam_roll, bind, query, ret.
  cbn [get_db_connection working].
  destruct (fp 0%nat) as [e0|]; [left; now exists e0|].
  unfold store_admit_card, bind, execute, commit, query, ret, raise.
  cbn [get_db_connection working committed].
  destruct (fp 1%nat) as [e1|]; [left; now exists e1|].
  destruct (insert_admit_card _ _ _ _ _) as [e|db1] eqn:Hins.
  { left. unfold insert_admit_card in Hins.
    destruct (_ || _); [|discriminate]. inversion Hins.
    now exists ER_DUP_ENTRY. }
  apply insert_admit_card_inv in Hins. subst db1.
  cbn [working committed].
  destruct (fp 2%nat) as [e2|]; [left; now exists e2|].
  cbn [working committed].
  destruct (fp 3%nat) as [e3|].
  { right. right. exists e3. split; reflexivity. }
  right. left.
  change {| card_request := request;
            exam_roll := py_or (select_max_roll db) ROLL_FLOOR + 1;
            issued_at := db_now; applicant_photo := None |}
    with (issued_card db_now db request).
  change (py_or (select_max_roll db) ROLL_FLOOR + 1)
    with (exam_roll (issued_card db_now db request)).
  rewrite select_new_card. reflexivity.
Qed.




(** The ways the insert step of a call can end, at whatever store it
    meets. *)
Lemma store_step_cases (sch : Schema) (fp : FaultPlan) (db_now : Z) (db : DB)
    (request : AdmitCardCreate) (roll : Z) :
  (exists errno,
     admit_card_outcome
       (store_admit_card sch fp db_now request roll (get_db_connection db)) =
     (db, inl (HTTPExn (database_error errno)))) \/
  ((card_roll_unique sch = true -> roll_taken roll db = false) /\
   (card_applicant_unique sch = true ->
    holds_card (applicant_id request) db = false) /\
   ((exists c,
       admit_card_outcome
         (store_admit_card sch fp db_now request roll (get_db_connection db)) =
       (with_card db (card_with_roll db_now request roll), inr c) /\
       exam_roll c = roll /\
       (roll_taken roll db = false -> c = card_with_roll db_now request roll)) \/
    (exists errno,
       fp 3%nat = Some errno /\
       admit_card_outcome
         (store_admit_card sch fp db_now request roll (get_db_connection db)) =
       (with_card db (card_with_roll db_now request roll),
        inl (HTTPExn (database_error errno)))))).
Proof.
  unfold store_admit_card, bind, execute, commit, query, ret, raise.
  cbn [get_db_connection working committed].
  destruct (fp 1%nat) as [e1|]; [left; now exists e1|].
  destruct (insert_admit_card sch db_now request roll db) as [e|db1] eqn:Hins.
  { left. unfold insert_admit_card in Hins.
    destruct (_ || _); [|discriminate]. inversion Hins.
    now exists ER_DUP_ENTRY. }
  assert (Hfree : card_roll_unique sch = true -> roll_taken roll db = false).
  { intros Hu. unfold insert_admit_card in Hins. unfold roll_taken.
    rewrite Hu in Hins. cbn [andb] in Hins.
    destruct (existsb (fun r => exam_roll r =? roll) (admit_card db));
      [discriminate|reflexivity]. }
  assert (Hnone : card_applicant_unique sch = true ->
                  holds_card (applicant_id request) db = false).
  { intros Hu. unfold insert_admit_card in Hins. unfold holds_card.
    rewrite Hu in Hins. cbn [andb] in Hins.
    destruct (existsb (fun r => applicant_id (card_request r)
                                =? applicant_id request) (admit_card db));
      [|reflexivity].
    rewrite orb_true_r in Hins. discriminate. }
  apply insert_admit_card_inv in Hins. subst db1.
  cbn [working committed].
  destruct (fp 2%nat) as [e2|]; [left; now exists e2|].
  cbn [working committed].
  right. split; [exact Hfree|]. split; [exact Hnone|].
  destruct (fp 3%nat) as [e3|].
  { right. exists e3. split; reflexivity. }
  left. unfold select_card_by_roll. cbn [admit_card with_card].
  destruct (find_last (fun r => exam_roll r =? roll) (admit_card db)
              {| card_request := request; exam_roll := roll;
                 issued_at := db_now; applicant_photo := None |})
    as [y Hy]; [cbn; apply Z.eqb_refl|].
  rewrite Hy. exists (photo_to_base64 y). split; [reflexivity|]. split.
  - rewrite photo_to_base64_roll. apply find_some in Hy.
    destruct Hy as [_ Hr]. now apply Z.eqb_eq in Hr.
  - intros Hnot. unfold roll_taken in Hnot.
    rewrite find_new_row in Hy; [| exact Hnot | cbn; apply Z.eqb_refl].
    inversion Hy. reflexivity.
Qed.

Lemma step_allocated (sch : Schema) (fp : FaultPlan) (db_now : Z) (db : DB)
    (request : AdmitCardCreate) (roll : Z) :
  step_call sch fp db_now db (allocated request roll) =
    (fst (admit_card_outcome
            (store_admit_card sch fp db_now request roll (get_db_connection db))),
     {| call_request := request;
        call_phase :=
          Finished
            (snd (admit_card_outcome
                    (store_admit_card sch fp db_now request roll
                                      (get_db_connection db)))) |}).
Proof.
  unfold step_call, allocated. cbn [call_phase call_request].
  now destruct (admit_card_outcome _).
Qed.



Lemma step_call_distinct (sch : Schema) (fp : FaultPlan) (db_now : Z) (db : DB)
    (c : Call) :
  card_roll_unique sch = true ->
  NoDup (map exam_roll (admit_card db)) ->
  NoDup (map exam_roll (admit_card (fst (step_call sch fp db_now db c)))).
Proof.
  intros Hu Hnd. destruct c as [request [|roll|answer]].
  - unfold step_call. cbn [call_phase call_request].
    unfold generate_exam_roll, bind, query, ret.
    cbn [get_db_connection working].
    destruct (fp 0%nat); exact Hnd.
  - change {| call_request := request; call_phase := Allocated roll |}
      with (allocated request roll).
    rewrite step_allocated. cbn [fst].
    destruct (store_step_cases sch fp db_now db request roll)
      as [[errno Hfail] | [Hfree [_ Hstored]]].
    + now rewrite Hfail.
    + assert (Hnew : NoDup (map exam_roll
                (admit_card (with_card db (card_with_roll db_now request roll))))).
      { cbn [admit_card with_card]. rewrite map_app. cbn [map].
        apply NoDup_app; [exact Hnd | repeat constructor; intros [] |].
        intros r Hin [Heq | []]. subst r.
        apply roll_taken_iff in Hin. cbn [exam_roll card_with_roll] in Hin.
        rewrite (Hfree Hu) in Hin. discriminate. }
      destruct Hstored as [[c [Hok _]] | [errno [_ Hlate]]].
      * now rewrite Hok.
      * now rewrite Hlate.
  - exact Hnd.
Qed.

Lemma step_at_distinct (sch : Schema) (fp : FaultPlan) (db_now : Z) (i : nat)
    (db : DB) (calls : list Call) :
  card_roll_unique sch = true ->
  NoDup (map exam_roll (admit_card db)) ->
  NoDup (map exam_roll (admit_card (fst (step_at sch fp db_now i db calls)))).
Proof.
  intros Hu. revert i.
  induction calls as [|c rest IH]; intros i Hnd; cbn [step_at].
  - exact Hnd.
  - destruct i as [|j].
    + pose proof (step_call_distinct sch fp db_now db c Hu Hnd) as Hstep.
      now destruct (step_call sch fp db_now db c).
    + pose proof (IH j Hnd) as Hstep.
      now destruct (step_at sch fp db_now j db rest).
Qed.

(** X2. Distinct rolls stay distinct. With a unique roll column this holds
    along every interleaving of calls, whichever statements fail; and under
    every schema it holds of a call whose read and insert meet the same
    store, because the roll it computes lies above every roll on file. With
    no constraint and another call's insert in between it does not hold. *)
Theorem rolls_stay_distinct (sch : Schema) (fp : FaultPlan) (db_now : Z)
    (db : DB) :
  NoDup (map exam_roll (admit_card db)) ->
  (card_roll_unique sch = true ->
   forall schedule calls,
     NoDup (map exam_roll
              (admit_card (fst (run sch fp db_now schedule db calls))))) /\
  (forall request,
     NoDup (map exam_roll
              (admit_card (fst (create_admit_card sch fp db_now db request))))).
Proof.
  intros Hnd. split.
  - intros Hu schedule. revert db Hnd.
    induction schedule as [|i later IH]; intros db Hnd calls; cbn [run].
    + exact Hnd.
    + pose proof (step_at_distinct sch fp db_now i db calls Hu Hnd) as Hstep.
      destruct (step_at sch fp db_now i db calls) as [db1 calls1].
      now apply IH.
  - intros request.
    assert (Hnew : NoDup (map exam_roll
                     (admit_card (with_card db (issued_card db_now db request))))).
    { cbn [admit_card with_card]. rewrite map_app. cbn [map].
      apply NoDup_app; [exact Hnd | repeat constructor; intros [] |].
      intros r Hin [Heq | []]. subst r.
      apply roll_taken_iff in Hin. cbn [exam_roll issued_card] in Hin.
      rewrite new_roll_free in Hin. discriminate. }
    destruct (create_admit_card_cases sch fp db_now db request)
      as [[errno Hfail] | [Hok | [errno [Hfp Hlate]]]].
    + now rewrite Hfail.
    + now rewrite Hok.
    + now rewrite Hlate.
Qed.

(** X3. When the insert and the commit went through and the read-back of the
    new card fails, the caller gets the 500 "Database error" although the
    card is committed. *)
Theorem create_admit_card_failed_read_back (sch : Schema) (fp : FaultPlan)
    (db_now : Z) (db : DB) (request : AdmitCardCreate) (errno : Z) :
  fp 0%nat = None -> fp 1%nat = None -> fp 2%nat = None ->
  fp 3%nat = Some errno ->
  card_applicant_unique sch && holds_card (applicant_id request) db = false ->
  create_admit_card sch fp db_now db request =
    (with_card db (issued_card db_now db request),
     inl (HTTPExn (database_error errno))).
Proof.
  intros Hf0 Hf1 Hf2 Hf3 Hfree.
  rewrite create_admit_card_unfold.
  rewrite generate_exam_roll_value by exact Hf0.
  unfold store_admit_card, bind, execute, commit, query.
  cbn [get_db_connection working committed]. rewrite Hf1.
  unfold insert_admit_card.
  pose proof (new_roll_free db) as Hroll. unfold roll_taken in Hroll.
  unfold holds_card in Hfree. rewrite Hroll, Hfree, andb_false_r.
  cbn [orb working committed]. rewrite Hf2. cbn [working committed].
  rewrite Hf3. reflexivity.
Qed.

End AllocatorFrame.

Section SessionFrame.

Context `{Platform}.

(** X4. A token minted by create_access_token decodes, under the same key,
    to the subject it was minted for and to the expiry utcnow + lifetime as
    long as that instant lies ahead, and is refused as expired from that
    instant on; the lifetime is the given delta, and 15 minutes when the
    delta is missing or zero. An exp entry of the data is overwritten. *)
Theorem minted_token_decodes (utcnow now : Z) (data : JwtClaims)
    (expires_delta : option Z) :
  let lifetime :=
    match expires_delta with
    | Some d => if d =? 0 then 900 else d
    | None => 900
    end in
  jwt_decode (create_access_token utcnow data expires_delta) SECRET_KEY now =
    if utcnow + lifetime <=? now then inl ExpiredSignatureError
    else inr {| sub := sub data; exp := Some (utcnow + lifetime) |}.
Proof.
  cbv zeta. unfold create_access_token, jwt_encode, jwt_decode.
  rewrite String.eqb_refl. cbn [exp].
  destruct expires_delta as [d|]; cbn [truthy_delta].
  - destruct (d =? 0); reflexivity.
  - reflexivity.
Qed.

(** X5. get_current_user hands out an applicant only for a token that is the
    signature, under SECRET_KEY, of claims whose subject is the email of that
    applicant and whose expiry, if any, lies after the instant of the call;
    and the applicant is a row of applicant_info. *)
Theorem get_current_user_sound (fp : FaultPlan) (now : Z) (db : DB)
    (token : Token) (user : ApplicantRow) :
  get_current_user fp now db token = inr user ->
  exists claims,
    token = jwt_encode claims SECRET_KEY /\
    sub claims = Some (email (info_fields user)) /\
    (forall e, exp claims = Some e -> now < e) /\
    In user (applicant_info db).
Proof.
  unfold get_current_user, jwt_decode, jwt_encode.
  destruct token as [claims signature|s]; [|discriminate].
  destruct (String.eqb signature (hs256 SECRET_KEY claims)) eqn:Hsig;
    [|discriminate].
  apply String.eqb_eq in Hsig. subst signature.
  assert (Hexp : forall payload,
            match exp claims with
            | Some e => if e <=? now then inl ExpiredSignatureError else inr claims
            | None => inr claims
            end = inr payload ->
            payload = claims /\ (forall e, exp claims = Some e -> now < e)).
  { intros payload. destruct (exp claims) as [e|].
    - destruct (e <=? now) eqn:Hle; [discriminate|].
      intros Heq. inversion Heq. split; [reflexivity|].
      intros e' He'. inversion He'; subst. apply Z.leb_gt in Hle. exact Hle.
    - intros Heq. inversion Heq. split; [reflexivity|]. discriminate. }
  destruct (match exp claims with
            | Some e => if e <=? now then inl ExpiredSignatureError else inr claims
            | None => inr claims
            end) as [err|payload] eqn:Hdec; [discriminate|].
  destruct (Hexp payload eq_refl) as [-> Hlive].
  destruct (sub claims) as [subject|] eqn:Hsub; [|discriminate].
  unfold query, get_db_connection. cbn [working].
  destruct (fp 0%nat); [discriminate|].
  destruct (select_info subject db) as [row|] eqn:Hrow; [|discriminate].
  intros Heq. inversion Heq; subst row.
  exists claims. split; [reflexivity|]. split.
  - now rewrite (select_info_email _ _ _ Hrow).
  - split; [exact Hlive|].
    unfold select_info in Hrow. now apply find_some in Hrow.
Qed.

Lemma authenticate_user_store (fp : FaultPlan) (db_now : Z) (db : DB)
    (e p : string) :
  fst (authenticate_user fp db_now db e p) = db \/
  fst (authenticate_user fp db_now db e p) = touched db_now e db.
Proof.
  unfold authenticate_user, authenticate_user_body, bind, query, execute,
    commit, ret.
  cbn [get_db_connection working committed].
  destruct (fp 0%nat); [now left|].
  destruct (select_login e db) as [u|]; [|now left].
  destruct (verify_password p (password_hash u)); cbn [negb]; [|now left].
  destruct (fp 1%nat); [now left|].
  cbn [update_last_login working committed].
  destruct (fp 2%nat); [now left|].
  cbn [working committed].
  destruct (fp 3%nat); now right.
Qed.

Lemma login_store (fp : FaultPlan) (db_now utcnow : Z) (db : DB) (e p : string) :
  fst (login_for_access_token fp db_now utcnow db e p) =
  fst (authenticate_user fp db_now db e p).
Proof.
  unfold login_for_access_token.
  destruct (authenticate_user fp db_now db e p) as [d [err|user]];
    [reflexivity|].
  destruct user as [|[row|]]; reflexivity.
Qed.

Lemma touched_frame (db_now : Z) (e : string) (db : DB) :
  applicant_info (touched db_now e db) = applicant_info db /\
  admit_card (touched db_now e db) = admit_card db /\
  map login_email (applicant_login (touched db_now e db)) =
    map login_email (applicant_login db) /\
  map password_hash (applicant_login (touched db_now e db)) =
    map password_hash (applicant_login db) /\
  filter (fun r => negb (String.eqb (login_email r) e))
         (applicant_login (touched db_now e db)) =
    filter (fun r => negb (String.eqb (login_email r) e)) (applicant_login db).
Proof.
  unfold touched, update_last_login. cbn [applicant_info admit_card applicant_login].
  split; [reflexivity|]. split; [reflexivity|].
  induction (applicant_login db) as [|r rows [IH1 [IH2 IH3]]]; cbn [map filter].
  - repeat split.
  - destruct (String.eqb (login_email r) e) eqn:Hr; cbn [login_email password_hash].
    + rewrite Hr. cbn [negb]. rewrite IH1, IH2, IH3. repeat split.
    + rewrite Hr. cbn [negb]. rewrite IH1, IH2, IH3. repeat split.
Qed.

(** X6. Signing in, whatever its outcome and whichever statement fails,
    changes nothing in the store but the last_login of the credentials of
    that email: applicant_info and admit_card are as before, no credential
    is added or removed, no email and no password digest changes, and the
    credentials of other emails are untouched. *)
Theorem login_changes_only_last_login (fp : FaultPlan) (db_now utcnow : Z)
    (db : DB) (e p : string) :
  let db' := fst (login_for_access_token fp db_now utcnow db e p) in
  applicant_info db' = applicant_info db /\
  admit_card db' = admit_card db /\
  map login_email (applicant_login db') = map login_email (applicant_login db) /\
  map password_hash (applicant_login db') =
    map password_hash (applicant_login db) /\
  filter (fun r => negb (String.eqb (login_email r) e)) (applicant_login db') =
    filter (fun r => negb (String.eqb (login_email r) e)) (applicant_login db).
Proof.
  cbv zeta. rewrite login_store.
  destruct (authenticate_user_store fp db_now db e p) as [-> | ->].
  - repeat split.
  - apply touched_frame.
Qed.

(** X7. When the first statement to fail during a sign-in is the lookup of
    the credential, the update of last_login or the commit, the endpoint
    answers with its 500 carrying that error and the store is as before: an
    update that was not committed is dropped. *)
Theorem login_storage_failure (fp : FaultPlan) (db_now utcnow : Z) (db : DB)
    (e p : string) (errno : Z) :
  fp 0%nat = Some errno \/
  (fp 0%nat = None /\
   (exists u, select_login e db = Some u /\
              password_hash u = get_password_hash p) /\
   (fp 1%nat = Some errno \/ (fp 1%nat = None /\ fp 2%nat = Some errno))) ->
  login_for_access_token fp db_now utcnow db e p =
    (db, inl (login_error (PyExn (MySqlError errno)))).
Proof.
  intros Hcase.
  assert (Hauth : authenticate_user fp db_now db e p =
                  (db, inl (MySqlError errno))).
  { unfold authenticate_user, authenticate_user_body, bind, query, execute,
      commit, ret.
    cbn [get_db_connection working committed].
    destruct Hcase as [Hf0 | [Hf0 [[u [Hu Hh]] Hlater]]].
    - now rewrite Hf0.
    - rewrite Hf0, Hu. apply verify_password_true in Hh. rewrite Hh.
      cbn [negb]. destruct Hlater as [Hf1 | [Hf1 Hf2]].
      + now rewrite Hf1.
      + rewrite Hf1. cbn [update_last_login working committed].
        now rewrite Hf2. }
  unfold login_for_access_token. now rewrite Hauth.
Qed.

Lemma register_success_inv (sch : Schema) (fp : FaultPlan) (db_now : Z)
    (db db1 : DB) (applicant : ApplicantCreate) (message : string) :
  info_email_unique sch = true ->
  login_email_unique sch = true ->
  register_applicant sch fp db_now db applicant = (db1, inr message) ->
  db1 = registered db_now db applicant /\
  has_credential (email (base applicant)) db = false /\
  select_info (email (base applicant)) db = None.
Proof.
  intros Hinfo Hlogin.
  unfold register_applicant, register_body, bind, execute, commit, ret.
  cbn [get_db_connection working committed].
  destruct (fp 0%nat); [discriminate|].
  unfold insert_applicant_info. rewrite Hinfo. cbn [andb].
  destruct (existsb _ (applicant_info db)) eqn:Hex; [discriminate|].
  cbn [working committed].
  destruct (fp 1%nat); [discriminate|].
  unfold insert_applicant_login. cbn [applicant_login]. rewrite Hlogin.
  cbn [andb].
  destruct (existsb _ (applicant_login db)) eqn:Hex2; [discriminate|].
  cbn [working committed].
  destruct (fp 2%nat); [discriminate|].
  cbn [working committed close]. intros Heq. inversion Heq.
  split; [reflexivity|]. split; [exact Hex2|].
  unfold select_info.
  destruct (find _ (applicant_info db)) as [row|] eqn:Hfind; [|reflexivity].
  apply find_some in Hfind. destruct Hfind as [Hin Hrow].
  assert (Hsome : existsb
            (fun r => String.eqb (email (info_fields r)) (email (base applicant)))
            (applicant_info db) = true).
  { apply existsb_exists. now exists row. }
  congruence.
Qed.

(** X8. After a registration that went through, the email being unique in
    both tables, signing in with the registered email and password returns a
    token, and that token resolves, before its expiry, to the applicant with
    exactly the registered fields. *)
Theorem register_then_sign_in (sch : Schema) (fp : FaultPlan)
    (db_now login_now utcnow now : Z) (db db1 : DB) (applicant : ApplicantCreate)
    (message : string) :
  info_email_unique sch = true ->
  login_email_unique sch = true ->
  register_applicant sch fp db_now db applicant = (db1, inr message) ->
  now < utcnow + timedelta_minutes ACCESS_TOKEN_EXPIRE_MINUTES ->
  exists db2 token user,
    login_for_access_token no_faults login_now utcnow db1
      (email (base applicant)) (password applicant) =
      (db2, inr {| access_token := token; token_type := "bearer" |}) /\
    get_current_user no_faults now db2 token = inr user /\
    info_fields user = base applicant.
Proof.
  intros Hinfo Hlogin Hreg Hnow.
  destruct (register_success_inv sch fp db_now db db1 applicant message
              Hinfo Hlogin Hreg) as [-> [Hcred Hnone]].
  destruct (registered_lookups db_now db applicant Hcred Hnone) as [Hu Hrow].
  set (e := email (base applicant)) in *.
  set (row := {| info_applicant_id := next_applicant_id (applicant_info db);
                 info_fields := base applicant;
                 created_at := db_now; updated_at := db_now |}) in *.
  exists (touched login_now e (registered db_now db applicant)).
  exists (create_access_token utcnow {| sub := Some e; exp := None |}
            (Some (timedelta_minutes ACCESS_TOKEN_EXPIRE_MINUTES))).
  exists row. split; [|split; [|reflexivity]].
  - unfold login_for_access_token.
    rewrite (authenticate_correct_password login_now _ e (password applicant) _
               Hu eq_refl), Hrow.
    reflexivity.
  - unfold get_current_user, create_access_token, jwt_encode, jwt_decode.
    cbn [truthy_delta].
    change (timedelta_minutes ACCESS_TOKEN_EXPIRE_MINUTES =? 0) with false.
    cbn [negb sub exp]. rewrite String.eqb_refl.
    destruct (utcnow + timedelta_minutes ACCESS_TOKEN_EXPIRE_MINUTES <=? now)
      eqn:Hle; [apply Z.leb_le in Hle; lia|].
    unfold query, no_faults, get_db_connection. cbn [working sub].
    rewrite select_info_touched, Hrow. reflexivity.
Qed.

End SessionFrame.

Section CardProperties.

Context `{Platform}.

Lemma find_existsb_false {A} (p : A -> bool) (l : list A) :
  existsb p l = false -> find p l = None.
Proof.
  induction l as [|a l IH]; cbn [existsb find]; [reflexivity|].
  intros Hex. apply orb_false_iff in Hex. destruct Hex as [Ha Hl].
  rewrite Ha. now apply IH.
Qed.

Lemma find_existsb_true {A} (p : A -> bool) (l : list A) :
  existsb p l = true -> exists x, find p l = Some x /\ In x l /\ p x = true.
Proof.
  intros Hex. destruct (find p l) as [x|] eqn:Hfind.
  - exists x. split; [reflexivity|]. now apply find_some in Hfind.
  - apply existsb_exists in Hex. destruct Hex as [x [Hin Hx]].
    eapply find_none in Hfind; [|exact Hin]. congruence.
Qed.

(** X9. get_admit_card answers 404 "Admit card not found" exactly when the
    signed-in applicant has no card on file; otherwise it answers with a card
    on file of that applicant, its photo in base64. *)
Theorem get_admit_card_own_card (fp : FaultPlan) (db : DB)
    (current_user : ApplicantRow) :
  fp 0%nat = None ->
  (holds_card (info_applicant_id current_user) db = false ->
   get_admit_card fp db current_user = inl (HTTPExn admit_card_not_found)) /\
  (holds_card (info_applicant_id current_user) db = true ->
   exists card,
     In card (admit_card db) /\
     applicant_id (card_request card) = info_applicant_id current_user /\
     get_admit_card fp db current_user = inr (photo_to_base64 card)).
Proof.
  intros Hfp. unfold get_admit_card, query, get_db_connection, holds_card,
    select_card_by_applicant.
  cbn [working]. rewrite Hfp. split; intros Hcard.
  - now rewrite (find_existsb_false _ _ Hcard).
  - destruct (find_existsb_true _ _ Hcard) as [card [Hfind [Hin Hp]]].
    exists card. rewrite Hfind. apply Z.eqb_eq in Hp. now repeat split.
Qed.

Lemma upload_store (found_rows : bool) (fp : FaultPlan) (db : DB)
    (photo_data : string) (current_user : ApplicantRow) :
  fst (upload_applicant_photo found_rows fp db photo_data current_user) =
    match fp 0%nat, fp 1%nat with
    | None, None =>
        update_applicant_photo photo_data (info_applicant_id current_user) db
    | _, _ => db
    end.
Proof.
  unfold upload_applicant_photo, upload_applicant_photo_body, bind,
    execute_rowcount, commit, ret.
  cbn [get_db_connection working committed].
  destruct (fp 0%nat); [reflexivity|].
  cbn [working committed].
  destruct (fp 1%nat); [reflexivity|].
  cbn [working committed].
  now destruct (photo_rowcount _ _ _ _ =? 0).
Qed.

Lemma update_applicant_photo_frame (photo : string) (applicant : Z) (db : DB) :
  let db' := update_applicant_photo photo applicant db in
  applicant_info db' = applicant_info db /\
  applicant_login db' = applicant_login db /\
  map card_request (admit_card db') = map card_request (admit_card db) /\
  map exam_roll (admit_card db') = map exam_roll (admit_card db) /\
  map issued_at (admit_card db') = map issued_at (admit_card db) /\
  filter (fun r => negb (applicant_id (card_request r) =? applicant))
         (admit_card db') =
    filter (fun r => negb (applicant_id (card_request r) =? applicant))
           (admit_card db).
Proof.
  cbv zeta. unfold update_applicant_photo.
  cbn [applicant_info applicant_login admit_card].
  split; [reflexivity|]. split; [reflexivity|].
  induction (admit_card db) as [|r rows [IH1 [IH2 [IH3 IH4]]]]; cbn [map filter].
  - repeat split.
  - destruct (applicant_id (card_request r) =? applicant) eqn:Hr;
      cbn [card_request exam_roll issued_at]; rewrite Hr; cbn [negb];
      rewrite IH1, IH2, IH3, IH4; repeat split.
Qed.

(** X10. upload_applicant_photo, whatever it answers and whichever statement
    fails, touches nothing but the photo of the cards of the signed-in
    applicant: the applicants, the credentials, and on every card the
    request fields, the roll and the issue date are as before, no card is
    added or removed, and the cards of other applicants are untouched. *)
Theorem upload_changes_only_own_photo (found_rows : bool) (fp : FaultPlan)
    (db : DB) (photo_data : string) (current_user : ApplicantRow) :
  let db' :=
    fst (upload_applicant_photo found_rows fp db photo_data current_user) in
  applicant_info db' = applicant_info db /\
  applicant_login db' = applicant_login db /\
  map card_request (admit_card db') = map card_request (admit_card db) /\
  map exam_roll (admit_card db') = map exam_roll (admit_card db) /\
  map issued_at (admit_card db') = map issued_at (admit_card db) /\
  filter (fun r => negb (applicant_id (card_request r)
                         =? info_applicant_id current_user))
         (admit_card db') =
    filter (fun r => negb (applicant_id (card_request r)
                           =? info_applicant_id current_user))
           (admit_card db).
Proof.
  cbv zeta. rewrite upload_store.
  destruct (fp 0%nat); [repeat split|].
  destruct (fp 1%nat); [repeat split|].
  apply update_applicant_photo_frame.
Qed.

Lemma update_applicant_photo_no_card (photo : string) (applicant : Z) (db : DB) :
  holds_card applicant db = false ->
  update_applicant_photo photo applicant db = db /\
  forall found_rows, photo_rowcount found_rows photo applicant db = 0.
Proof.
  unfold holds_card, update_applicant_photo, photo_rowcount.
  destruct db as [info login cards]. cbn [applicant_info applicant_login admit_card].
  intros Hnone.
  assert (Hcards :
    map (fun r =>
           if applicant_id (card_request r) =? applicant
           then {| card_request := card_request r; exam_roll := exam_roll r;
                   issued_at := issued_at r; applicant_photo := Some photo |}
           else r) cards = cards /\
    forall found_rows,
      filter (fun r =>
                (applicant_id (card_request r) =? applicant)
                && (found_rows
                    || negb (photo_eqb (applicant_photo r) (Some photo))))
             cards = []).
  { induction cards as [|r rows IH]; cbn [map filter existsb] in *.
    - split; [reflexivity|]. intros _. reflexivity.
    - apply orb_false_iff in Hnone. destruct Hnone as [Hr Hrows].
      destruct (IH Hrows) as [IHm IHf]. rewrite Hr, IHm. cbn [andb].
      split; [reflexivity|exact IHf]. }
  destruct Hcards as [Hmap Hfilter]. rewrite Hmap. split; [reflexivity|].
  intros found_rows. now rewrite Hfilter.
Qed.

(** X11. For an applicant without a card, upload_applicant_photo does not
    answer with its 404: the "Admit card not found" it raises is caught by
    its own handler and leaves as a 500 "Error uploading photo"; the store is
    unchanged. *)
Theorem upload_without_card (found_rows : bool) (fp : FaultPlan) (db : DB)
    (photo_data : string) (current_user : ApplicantRow) :
  fp 0%nat = None -> fp 1%nat = None ->
  holds_card (info_applicant_id current_user) db = false ->
  upload_applicant_photo found_rows fp db photo_data current_user =
    (db, inl (upload_error (HTTPExn admit_card_not_found))).
Proof.
  intros Hf0 Hf1 Hnone.
  destruct (update_applicant_photo_no_card photo_data _ db Hnone)
    as [Hsame Hcount].
  unfold upload_applicant_photo, upload_applicant_photo_body, bind,
    execute_rowcount, commit, ret.
  cbn [get_db_connection working committed]. rewrite Hf0.
  cbn [working committed]. rewrite Hf1. cbn [working committed].
  rewrite Hcount, Hsame. reflexivity.
Qed.

Lemma find_updated_photo (photo : string) (applicant : Z)
    (cards : list AdmitCard) (card : AdmitCard) :
  find (fun r => applicant_id (card_request r) =? applicant) cards = Some card ->
  find (fun r => applicant_id (card_request r) =? applicant)
       (map (fun r =>
               if applicant_id (card_request r) =? applicant
               then {| card_request := card_request r; exam_roll := exam_roll r;
                       issued_at := issued_at r; applicant_photo := Some photo |}
               else r) cards) =
    Some {| card_request := card_request card; exam_roll := exam_roll card;
            issued_at := issued_at card; applicant_photo := Some photo |}.
Proof.
  induction cards as [|r rows IH]; cbn [find map]; [discriminate|].
  destruct (applicant_id (card_request r) =? applicant) eqn:Hr.
  - cbn [card_request]. rewrite Hr. intros Heq. now inversion Heq.
  - rewrite Hr. exact IH.
Qed.

(** X12. Upload, then fetch: once upload_applicant_photo ran without a
    storage failure for an applicant who holds a card, get_admit_card returns
    that applicant's card with the uploaded bytes in base64 and every other
    field as it was on file. This holds whatever the upload answered. *)
Theorem upload_then_get_admit_card (found_rows : bool) (fp fp' : FaultPlan)
    (db : DB) (photo_data : string) (current_user : ApplicantRow) :
  fp 0%nat = None -> fp 1%nat = None -> fp' 0%nat = None ->
  holds_card (info_applicant_id current_user) db = true ->
  photo_data <> EmptyString ->
  exists card,
    In card (admit_card db) /\
    applicant_id (card_request card) = info_applicant_id current_user /\
    get_admit_card fp'
      (fst (upload_applicant_photo found_rows fp db photo_data current_user))
      current_user =
    inr {| card_request := card_request card; exam_roll := exam_roll card;
           issued_at := issued_at card;
           applicant_photo := Some (b64encode photo_data) |}.
Proof.
  intros Hf0 Hf1 Hf' Hcard Hphoto.
  rewrite upload_store, Hf0, Hf1.
  unfold holds_card in Hcard.
  destruct (find_existsb_true _ _ Hcard) as [card [Hfind [Hin Hp]]].
  exists card. split; [exact Hin|]. split; [now apply Z.eqb_eq in Hp|].
  unfold get_admit_card, query, get_db_connection, select_card_by_applicant.
  cbn [working]. rewrite Hf'. unfold update_applicant_photo. cbn [admit_card].
  rewrite (find_updated_photo photo_data _ _ card Hfind).
  unfold photo_to_base64. cbn [applicant_photo card_request exam_roll issued_at].
  apply String.eqb_neq in Hphoto. now rewrite Hphoto.
Qed.

Lemma update_applicant_photo_twice (photo : string) (applicant : Z) (db : DB) :
  update_applicant_photo photo applicant
    (update_applicant_photo photo applicant db) =
  update_applicant_photo photo applicant db.
Proof.
  unfold update_applicant_photo. cbn [applicant_info applicant_login admit_card].
  f_equal. rewrite map_map. apply map_ext. intros r.
  destruct (applicant_id (card_request r) =? applicant) eqn:Hr.
  - cbn [card_request]. now rewrite Hr.
  - now rewrite Hr.
Qed.

Lemma photo_rowcount_after_update (found_rows : bool) (photo : string)
    (applicant : Z) (db : DB) :
  holds_card applicant db = true ->
  (photo_rowcount found_rows photo applicant
     (update_applicant_photo photo applicant db) =? 0) = negb found_rows.
Proof.
  unfold holds_card, photo_rowcount, update_applicant_photo. cbn [admit_card].
  intros Hcard. destruct found_rows; cbn [orb negb].
  - apply Z.eqb_neq.
    induction (admit_card db) as [|r rows IH]; cbn [existsb] in Hcard;
      [discriminate|].
    cbn [map filter].
    destruct (applicant_id (card_request r) =? applicant) eqn:Hr.
    + cbn [card_request]. rewrite Hr. cbn [andb List.length]. lia.
    + rewrite Hr. cbn [andb]. cbn [orb] in Hcard. now apply IH.
  - apply Z.eqb_eq. clear Hcard.
    induction (admit_card db) as [|r rows IH]; [reflexivity|].
    cbn [map filter].
    destruct (applicant_id (card_request r) =? applicant) eqn:Hr.
    + cbn [card_request applicant_photo photo_eqb]. rewrite Hr.
      rewrite String.eqb_refl. cbn [negb andb]. exact IH.
    + rewrite Hr. cbn [andb]. exact IH.
Qed.

(** X13. Uploading the same photo a second time changes nothing in the
    store, and the answer depends on what cursor.rowcount counts: success
    when it counts the rows matched, the 500 wrapping "Admit card not found"
    when it counts the rows changed. *)
Theorem upload_same_photo_again (found_rows : bool) (db : DB)
    (photo_data : string) (current_user : ApplicantRow) :
  holds_card (info_applicant_id current_user) db = true ->
  let db1 :=
    fst (upload_applicant_photo found_rows no_faults db photo_data current_user) in
  upload_applicant_photo found_rows no_faults db1 photo_data current_user =
    (db1,
     if found_rows then inr "Photo uploaded successfully"%string
     else inl (upload_error (HTTPExn admit_card_not_found))).
Proof.
  intros Hcard. cbv zeta. rewrite upload_store. cbn [no_faults].
  unfold upload_applicant_photo, upload_applicant_photo_body, bind,
    execute_rowcount, commit, ret.
  cbn [get_db_connection working committed no_faults].
  rewrite (photo_rowcount_after_update found_rows _ _ _ Hcard).
  rewrite update_applicant_photo_twice.
  now destruct found_rows.
Qed.

End CardProperties.

Section TableProperties.

Context `{Platform}.

Lemma next_row_id_above (ids : list Z) (i : Z) :
  In i ids -> i < next_row_id ids.
Proof.
  unfold next_row_id. induction ids as [|a ids IH]; cbn [fold_right In].
  - intros [].
  - intros [-> | Hin]; [lia|]. apply IH in Hin. lia.
Qed.

Lemma next_row_id_fresh (ids : list Z) : ~ In (next_row_id ids) ids.
Proof.
  intros Hin. apply next_row_id_above in Hin. lia.
Qed.

Lemma no_row_with_next_id {A} (key : A -> Z) (rows : list A) :
  existsb (fun r => key r =? next_row_id (map key rows)) rows = false.
Proof.
  destruct (existsb _ rows) eqn:Hex; [|reflexivity].
  apply existsb_exists in Hex. destruct Hex as [r [Hin Hr]].
  apply Z.eqb_eq in Hr. exfalso.
  apply (next_row_id_fresh (map key rows)). rewrite <- Hr. now apply in_map.
Qed.

(** X14. create_exam_center ignores the center_id of the request: the row
    is stored under a key no stored center has, the answer is the request
    with that key, and get_exam_centers then lists the centers that were on
    file followed by the new one. *)
Theorem create_exam_center_round_trip (fp fp' : FaultPlan) (t : Tables)
    (center : ExamCenter.t) :
  fp 0%nat = None -> fp 1%nat = None -> fp' 0%nat = None ->
  exists id,
    ~ In id (center_ids t) /\
    snd (create_exam_center fp t center) =
      inr {| ExamCenter.center_id := Some id;
             ExamCenter.center_name := ExamCenter.center_name center;
             ExamCenter.center_address := ExamCenter.center_address center |} /\
    get_exam_centers fp' (fst (create_exam_center fp t center)) =
      inr (exam_center t ++
           [ {| ExamCenter.center_id := Some id;
                ExamCenter.center_name := ExamCenter.center_name center;
                ExamCenter.center_address := ExamCenter.center_address center |} ]).
Proof.
  intros Hf0 Hf1 Hf'. exists (next_row_id (center_ids t)).
  split; [apply next_row_id_fresh|].
  unfold create_exam_center, get_exam_centers, tables_bind, tables_insert,
    tables_commit, tables_ret, tables_query.
  cbn [get_tables_connection tables_working tables_committed].
  rewrite Hf0. cbn [insert_exam_center tables_working tables_committed].
  rewrite Hf1. cbn [tables_outcome tables_close tables_committed tables_working
                    fst snd].
  rewrite Hf'. split; reflexivity.
Qed.

(** X15. create_exam_unit ignores the unit_id of the request in the same
    way: the unit is stored under a fresh key, answered with that key, and
    listed last by get_exam_units. *)
Theorem create_exam_unit_round_trip (fp fp' : FaultPlan) (t : Tables)
    (unit : ExamUnit.t) :
  fp 0%nat = None -> fp 1%nat = None -> fp' 0%nat = None ->
  exists id,
    ~ In id (unit_ids t) /\
    snd (create_exam_unit fp t unit) =
      inr {| ExamUnit.unit_id := Some id;
             ExamUnit.unit_code := ExamUnit.unit_code unit;
             ExamUnit.center_id := ExamUnit.center_id unit;
             ExamUnit.exam_date := ExamUnit.exam_date unit;
             ExamUnit.exam_time := ExamUnit.exam_time unit;
             ExamUnit.exam_duration := ExamUnit.exam_duration unit |} /\
    get_exam_units fp' (fst (create_exam_unit fp t unit)) =
      inr (exam_units t ++
           [ {| ExamUnit.unit_id := Some id;
                ExamUnit.unit_code := ExamUnit.unit_code unit;
                ExamUnit.center_id := ExamUnit.center_id unit;
                ExamUnit.exam_date := ExamUnit.exam_date unit;
                ExamUnit.exam_time := ExamUnit.exam_time unit;
                ExamUnit.exam_duration := ExamUnit.exam_duration unit |} ]).
Proof.
  intros Hf0 Hf1 Hf'. exists (next_row_id (unit_ids t)).
  split; [apply next_row_id_fresh|].
  unfold create_exam_unit, get_exam_units, tables_bind, tables_insert,
    tables_commit, tables_ret, tables_query.
  cbn [get_tables_connection tables_working tables_committed].
  rewrite Hf0. cbn [insert_exam_unit tables_working tables_committed].
  rewrite Hf1. cbn [tables_outcome tables_close tables_committed tables_working
                    fst snd].
  rewrite Hf'. split; reflexivity.
Qed.

(** X16. A storage failure in create_exam_center or create_exam_unit, at the
    insert or at the commit, is answered with the 500 "Database error" and
    leaves the tables as they were. *)
Theorem create_center_or_unit_failure (fp : FaultPlan) (t : Tables)
    (center : ExamCenter.t) (unit : ExamUnit.t) (errno : Z) :
  fp 0%nat = Some errno \/ (fp 0%nat = None /\ fp 1%nat = Some errno) ->
  create_exam_center fp t center = (t, inl (HTTPExn (database_error errno))) /\
  create_exam_unit fp t unit = (t, inl (HTTPExn (database_error errno))).
Proof.
  intros Hcase.
  unfold create_exam_center, create_exam_unit, tables_bind, tables_insert,
    tables_commit, tables_ret.
  cbn [get_tables_connection tables_working tables_committed].
  destruct Hcase as [Hf0 | [Hf0 Hf1]].
  - rewrite Hf0. split; reflexivity.
  - rewrite Hf0. cbn [insert_exam_center insert_exam_unit
                      tables_working tables_committed].
    rewrite Hf1. split; reflexivity.
Qed.

Lemma make_payment_success (fp : FaultPlan) (now db_now : Z) (t : Tables)
    (request : PaymentCreate.t) (current_user : ApplicantRow) :
  fp 0%nat = None -> fp 1%nat = None -> fp 2%nat = None ->
  make_payment fp now db_now t request current_user =
    (fst (insert_payment db_now (payment_data now request current_user) t),
     inr (Some
       {| Payment.payment_id := next_row_id (map Payment.payment_id (payment t));
          Payment.applicant_id := info_applicant_id current_user;
          Payment.fee_amount := PaymentCreate.fee_amount request;
          Payment.payment_status := PaymentCreate.payment_status request;
          Payment.created_at := db_now;
          Payment.payment_datetime :=
            match PaymentCreate.payment_datetime request with
            | None => Some now
            | Some d => Some d
            end |})).
Proof.
  intros Hf0 Hf1 Hf2.
  unfold make_payment, tables_bind, tables_insert, tables_commit, tables_query,
    tables_ret.
  cbn [get_tables_connection tables_working tables_committed].
  rewrite Hf0. cbn [insert_payment tables_working tables_committed].
  rewrite Hf1. cbn [tables_working tables_committed]. rewrite Hf2.
  unfold select_payment. cbn [payment].
  rewrite find_new_row.
  - reflexivity.
  - apply (no_row_with_next_id Payment.payment_id).
  - cbn. apply Z.eqb_refl.
Qed.

(** X17. A payment that goes through is recorded for the signed-in
    applicant, whatever applicant_id the request names; the amount and the
    status are the request's, the payment instant is the request's or, when
    it has none, the instant of the call; the row gets a key no stored
    payment has, is appended to the payments on file and is the answer. *)
Theorem make_payment_for_current_user (fp : FaultPlan) (now db_now : Z)
    (t : Tables) (request : PaymentCreate.t) (current_user : ApplicantRow) :
  fp 0%nat = None -> fp 1%nat = None -> fp 2%nat = None ->
  exists row,
    snd (make_payment fp now db_now t request current_user) = inr (Some row) /\
    payment (fst (make_payment fp now db_now t request current_user)) =
      payment t ++ [row] /\
    Payment.applicant_id row = info_applicant_id current_user /\
    Payment.fee_amount row = PaymentCreate.fee_amount request /\
    Payment.payment_status row = PaymentCreate.payment_status request /\
    (forall d, PaymentCreate.payment_datetime request = Some d ->
               Payment.payment_datetime row = Some d) /\
    (PaymentCreate.payment_datetime request = None ->
     Payment.payment_datetime row = Some now) /\
    ~ In (Payment.payment_id row) (map Payment.payment_id (payment t)).
Proof.
  intros Hf0 Hf1 Hf2.
  rewrite (make_payment_success fp now db_now t request current_user Hf0 Hf1 Hf2).
  eexists. cbn [fst snd insert_payment payment payment_data
                Payment.applicant_id Payment.fee_amount Payment.payment_status
                Payment.payment_datetime Payment.payment_id
                PaymentCreate.applicant_id PaymentCreate.fee_amount
                PaymentCreate.payment_status PaymentCreate.payment_datetime].
  split; [reflexivity|]. split; [reflexivity|].
  split; [reflexivity|]. split; [reflexivity|]. split; [reflexivity|].
  split; [|split].
  - intros d Hd. now rewrite Hd.
  - intros Hd. now rewrite Hd.
  - apply next_row_id_fresh.
Qed.

(** X18. Storage failures of make_payment. A failure at the insert or at the
    commit is answered with the 500 "Database error" and records nothing; a
    failure of the read-back after the commit is answered with the same 500
    although the payment is recorded. *)
Theorem make_payment_failures (fp : FaultPlan) (now db_now : Z) (t : Tables)
    (request : PaymentCreate.t) (current_user : ApplicantRow) (errno : Z) :
  (fp 0%nat = Some errno \/ (fp 0%nat = None /\ fp 1%nat = Some errno) ->
   make_payment fp now db_now t request current_user =
     (t, inl (HTTPExn (database_error errno)))) /\
  (fp 0%nat = None -> fp 1%nat = None -> fp 2%nat = Some errno ->
   make_payment fp now db_now t request current_user =
     (fst (insert_payment db_now (payment_data now request current_user) t),
      inl (HTTPExn (database_error errno))) /\
   List.length
     (payment (fst (make_payment fp now db_now t request current_user))) =
     S (List.length (payment t))).
Proof.
  unfold make_payment, tables_bind, tables_insert, tables_commit, tables_query,
    tables_ret.
  cbn [get_tables_connection tables_working tables_committed].
  split.
  - intros [Hf0 | [Hf0 Hf1]].
    + now rewrite Hf0.
    + rewrite Hf0. cbn [insert_payment tables_working tables_committed].
      now rewrite Hf1.
  - intros Hf0 Hf1 Hf2. rewrite Hf0.
    cbn [insert_payment tables_working tables_committed].
    rewrite Hf1. cbn [tables_working tables_committed]. rewrite Hf2.
    cbn [tables_outcome tables_close tables_rollback tables_committed fst
         payment].
    split; [reflexivity|]. rewrite length_app. cbn. lia.
Qed.

End TableProperties.

Section ResultProperties.

Context `{Platform}.

Lemma result_status_eqb_eq (a b : ResultStatus.t) :
  result_status_eqb a b = true <-> a = b.
Proof.
  destruct a, b; cbn; split; intros Heq; try reflexivity; discriminate.
Qed.

Lemma create_result_success (fp : FaultPlan) (now total_marks_default : Z)
    (t : Tables) (request : ResultCreate.t) :
  fp 0%nat = None -> fp 1%nat = None -> fp 2%nat = None ->
  create_result fp now total_marks_default t request =
    (fst (insert_result total_marks_default (result_data now request) t),
     inr (Some
       {| Result.result_id := next_row_id (map Result.result_id (result t));
          Result.applicant_id := ResultCreate.applicant_id request;
          Result.unit_id := ResultCreate.unit_id request;
          Result.marks_obtained :=
            sql_float (ResultCreate.marks_obtained request);
          Result.status := ResultCreate.status (data_fields (result_data now request));
          Result.total_marks := total_marks_default;
          Result.result_published :=
            data_result_published (result_data now request) |})).
Proof.
  intros Hf0 Hf1 Hf2.
  unfold create_result, tables_bind, tables_insert, tables_commit, tables_query,
    tables_ret.
  cbn [get_tables_connection tables_working tables_committed].
  rewrite Hf0. cbn [insert_result tables_working tables_committed].
  rewrite Hf1. cbn [tables_working tables_committed]. rewrite Hf2.
  unfold select_result. cbn [result].
  rewrite find_new_row.
  - reflexivity.
  - apply (no_row_with_next_id Result.result_id).
  - cbn. apply Z.eqb_refl.
Qed.

(** X19. A result that create_result stores is pending exactly when the
    request was pending and carried no marks, and it has a publication date,
    the instant of the call, exactly when it is not pending; total_marks is
    the default of the column; finite marks and absent marks are stored as
    sent, NaN marks are stored as NULL. The row is appended to the results
    on file and is the answer. *)
Theorem create_result_published_iff_settled (fp : FaultPlan)
    (now total_marks_default : Z) (t : Tables) (request : ResultCreate.t) :
  fp 0%nat = None -> fp 1%nat = None -> fp 2%nat = None ->
  exists row,
    snd (create_result fp now total_marks_default t request) = inr (Some row) /\
    result (fst (create_result fp now total_marks_default t request)) =
      result t ++ [row] /\
    (Result.status row = ResultStatus.PENDING <->
     ResultCreate.status request = ResultStatus.PENDING /\
     ResultCreate.marks_obtained request = None) /\
    (Result.result_published row = None <->
     Result.status row = ResultStatus.PENDING) /\
    (forall d, Result.result_published row = Some d -> d = now) /\
    (forall q, ResultCreate.marks_obtained request = Some (Finite q) ->
               Result.marks_obtained row = Some (Finite q)) /\
    (ResultCreate.marks_obtained request = None \/
     ResultCreate.marks_obtained request = Some NaN ->
     Result.marks_obtained row = None) /\
    Result.total_marks row = total_marks_default.
Proof.
  intros Hf0 Hf1 Hf2.
  rewrite (create_result_success fp now total_marks_default t request Hf0 Hf1 Hf2).
  eexists. cbn [fst snd insert_result result Result.status
                Result.result_published Result.marks_obtained Result.total_marks].
  split; [reflexivity|]. split; [reflexivity|].
  unfold result_data.
  destruct request as [applicant unit marks status].
  cbn [ResultCreate.marks_obtained ResultCreate.status data_fields
       data_result_published].
  split; [|split; [|split; [|split; [|split; [|reflexivity]]]]].
  4: { intros q Hq. now rewrite Hq. }
  4: { intros [Hm | Hm]; now rewrite Hm. }
  - destruct marks as [m|]; destruct status; cbn;
      try destruct (float_ge m 32); split;
      try (intros Heq; discriminate);
      try (intros [Ha Hb]; discriminate);
      try (intros _; now split); try reflexivity;
      intros [_ Hb]; discriminate.
  - destruct marks as [m|]; destruct status; cbn;
      try destruct (float_ge m 32); cbn; split;
      try (intros Heq; discriminate); try reflexivity.
  - intros d. destruct marks as [m|]; destruct status; cbn;
      try destruct (float_ge m 32); cbn; intros Heq;
      try discriminate; now inversion Heq.
Qed.

(** X20. Grading. A pending request with finite marks is stored as Passed
    when the marks reach 32 and as Failed below; with NaN for marks it is
    stored as Failed; and a request that names Passed or Failed is stored
    with that status whatever its marks. *)
Theorem create_result_grading (fp : FaultPlan) (now total_marks_default : Z)
    (t : Tables) (request : ResultCreate.t) :
  fp 0%nat = None -> fp 1%nat = None -> fp 2%nat = None ->
  exists row,
    snd (create_result fp now total_marks_default t request) = inr (Some row) /\
    (ResultCreate.status request = ResultStatus.PENDING ->
     forall q, ResultCreate.marks_obtained request = Some (Finite q) ->
       ((inject_Z 32 <= q)%Q -> Result.status row = ResultStatus.PASSED) /\
       ((q < inject_Z 32)%Q -> Result.status row = ResultStatus.FAILED)) /\
    (ResultCreate.status request = ResultStatus.PENDING ->
     ResultCreate.marks_obtained request = Some NaN ->
     Result.status row = ResultStatus.FAILED) /\
    (ResultCreate.status request <> ResultStatus.PENDING ->
     Result.status row = ResultCreate.status request).
Proof.
  intros Hf0 Hf1 Hf2.
  rewrite (create_result_success fp now total_marks_default t request Hf0 Hf1 Hf2).
  eexists. cbn [snd Result.status]. split; [reflexivity|].
  unfold result_data. cbn [data_fields ResultCreate.status].
  split; [|split].
  - intros Hpending q Hmarks. rewrite Hmarks, Hpending.
    cbn [result_status_eqb float_ge]. split.
    + intros Hge. apply Qle_bool_iff in Hge. now rewrite Hge.
    + intros Hlt. destruct (Qle_bool (inject_Z 32) q) eqn:Hb; [|reflexivity].
      apply Qle_bool_iff in Hb. exfalso. now apply (Qlt_not_le _ _ Hlt).
  - intros Hpending Hmarks. now rewrite Hmarks, Hpending.
  - intros Hsettled.
    destruct (ResultCreate.marks_obtained request) as [m|]; [|reflexivity].
    destruct (result_status_eqb (ResultCreate.status request) ResultStatus.PENDING)
      eqn:Heq; [|reflexivity].
    apply result_status_eqb_eq in Heq. contradiction.
Qed.

(** X21. Store, then list: after create_result stored a result, get_results
    gives the signed-in applicant the results that were listed before,
    followed by the new one when the request named this applicant and by
    nothing otherwise. *)
Theorem create_result_then_get_results (fp fp' : FaultPlan)
    (now total_marks_default : Z) (t : Tables) (request : ResultCreate.t)
    (current_user : ApplicantRow) :
  fp 0%nat = None -> fp 1%nat = None -> fp 2%nat = None -> fp' 0%nat = None ->
  exists row,
    snd (create_result fp now total_marks_default t request) = inr (Some row) /\
    get_results fp' (fst (create_result fp now total_marks_default t request))
      current_user =
    inr (select_results_of (info_applicant_id current_user) t ++
         if ResultCreate.applicant_id request =? info_applicant_id current_user
         then [row] else []).
Proof.
  intros Hf0 Hf1 Hf2 Hf'.
  rewrite (create_result_success fp now total_marks_default t request Hf0 Hf1 Hf2).
  eexists. cbn [fst snd]. split; [reflexivity|].
  unfold get_results, tables_query, get_tables_connection.
  cbn [tables_working]. rewrite Hf'.
  unfold select_results_of. cbn [insert_result fst result].
  rewrite filter_app.
  cbn [filter Result.applicant_id result_data data_fields
       ResultCreate.applicant_id].
  now destruct (ResultCreate.applicant_id request
                =? info_applicant_id current_user).
Qed.

(** X22. Sign in, then pay: with the token a sign-in returned, make_payment
    behind Depends(get_current_user) records the payment for the applicant
    of the email that signed in, whatever applicant_id the request names. *)
Theorem payment_goes_to_token_subject (db_now utcnow now pay_now pay_db_now : Z)
    (db : DB) (t : Tables) (e p : string) (u : LoginRow) (row : ApplicantRow)
    (request : PaymentCreate.t) :
  select_login e db = Some u ->
  password_hash u = get_password_hash p ->
  select_info e db = Some row ->
  now < utcnow + timedelta_minutes ACCESS_TOKEN_EXPIRE_MINUTES ->
  exists db' token paid,
    login_for_access_token no_faults db_now utcnow db e p =
      (db', inr {| access_token := token; token_type := "bearer" |}) /\
    snd (depends_current_user no_faults now db' token t
           (make_payment no_faults pay_now pay_db_now t request)) =
      inr (Some paid) /\
    Payment.applicant_id paid = info_applicant_id row.
Proof.
  intros Hu Hh Hrow Hnow.
  pose proof (select_info_email _ _ _ Hrow) as Hemail.
  exists (touched db_now e db).
  exists (create_access_token utcnow {| sub := Some e; exp := None |}
            (Some (timedelta_minutes ACCESS_TOKEN_EXPIRE_MINUTES))).
  eexists. split; [|split].
  - unfold login_for_access_token.
    rewrite (authenticate_correct_password db_now db e p u Hu Hh), Hrow.
    rewrite Hemail. reflexivity.
  - unfold depends_current_user.
    assert (Hres : get_current_user no_faults now (touched db_now e db)
              (create_access_token utcnow {| sub := Some e; exp := None |}
                 (Some (timedelta_minutes ACCESS_TOKEN_EXPIRE_MINUTES))) =
              inr row).
    { unfold get_current_user, create_access_token, jwt_encode, jwt_decode.
      cbn [truthy_delta].
      change (timedelta_minutes ACCESS_TOKEN_EXPIRE_MINUTES =? 0) with false.
      cbn [negb sub exp]. rewrite String.eqb_refl.
      destruct (utcnow + timedelta_minutes ACCESS_TOKEN_EXPIRE_MINUTES <=? now)
        eqn:Hle; [apply Z.leb_le in Hle; lia|].
      unfold query, no_faults, get_db_connection. cbn [working sub].
      now rewrite select_info_touched, Hrow. }
    rewrite Hres.
    rewrite (make_payment_success no_faults pay_now pay_db_now t request row
               eq_refl eq_refl eq_refl).
    reflexivity.
  - reflexivity.
Qed.

End ResultProperties.

Section IssuedCard.

Context `{Platform}.

Lemma create_admit_card_success_inv (sch : Schema) (fp : FaultPlan) (db_now : Z)
    (db db' : DB) (request : AdmitCardCreate) (card : AdmitCard) :
  create_admit_card sch fp db_now db request = (db', inr card) ->
  card = issued_card db_now db request /\
  db' = with_card db (issued_card db_now db request).
Proof.
  intros Hok.
  destruct (create_admit_card_cases sch fp db_now db request)
    as [[errno Hfail] | [Hcase | [errno [_ Hlate]]]].
  - rewrite Hfail in Hok. discriminate.
  - rewrite Hcase in Hok. inversion Hok. now split.
  - rewrite Hlate in Hok. discriminate.
Qed.

Lemma step_allocated_success (sch : Schema) (fp : FaultPlan) (db_now : Z)
    (db db' : DB) (request : AdmitCardCreate) (roll : Z) (card : AdmitCard) :
  step_call sch fp db_now db (allocated request roll) =
    (db', {| call_request := request; call_phase := Finished (inr card) |}) ->
  db' = with_card db (card_with_roll db_now request roll) /\
  exam_roll card = roll /\
  (card_roll_unique sch = true -> card = card_with_roll db_now request roll).
Proof.
  rewrite step_allocated.
  destruct (store_step_cases sch fp db_now db request roll)
    as [[errno Hfail] | [Hfree [_ [[c [Hok [Hroll Hsame]]] | [errno [Hfp Hlate]]]]]].
  - rewrite Hfail. cbn [fst snd]. intros Heq. inversion Heq.
  - rewrite Hok. cbn [fst snd]. intros Heq. inversion Heq; subst.
    split; [reflexivity|]. split; [reflexivity|].
    intros Hu. apply Hsame. now apply Hfree.
  - rewrite Hlate. cbn [fst snd]. intros Heq. inversion Heq.
Qed.

Lemma get_new_card (fp' : FaultPlan) (db : DB) (card : AdmitCard)
    (current_user : ApplicantRow) :
  fp' 0%nat = None ->
  holds_card (info_applicant_id current_user) db = false ->
  applicant_id (card_request card) = info_applicant_id current_user ->
  applicant_photo card = None ->
  get_admit_card fp' (with_card db card) current_user = inr card.
Proof.
  intros Hf' Hnone Howner Hphoto.
  unfold get_admit_card, query, get_db_connection, select_card_by_applicant.
  cbn [working]. rewrite Hf'. cbn [admit_card with_card].
  rewrite find_new_row.
  - unfold photo_to_base64. now rewrite Hphoto.
  - exact Hnone.
  - cbn. rewrite Howner. apply Z.eqb_refl.
Qed.

(** X23. Issue, then fetch, for an applicant with no card on file when the
    card is inserted. With a unique roll column, in every interleaving: when
    the insert step of a call answers with a card, get_admit_card gives the
    applicant that very card. Under every schema the same holds of a call
    whose read and insert meet the same store. *)
Theorem issue_then_get_admit_card (sch : Schema) (fp fp' : FaultPlan)
    (db_now : Z) (db : DB) (request : AdmitCardCreate)
    (current_user : ApplicantRow) :
  holds_card (applicant_id request) db = false ->
  info_applicant_id current_user = applicant_id request ->
  fp' 0%nat = None ->
  (card_roll_unique sch = true ->
   forall roll db' card,
     step_call sch fp db_now db (allocated request roll) =
       (db', {| call_request := request; call_phase := Finished (inr card) |}) ->
     get_admit_card fp' db' current_user = inr card) /\
  (forall db' card,
     create_admit_card sch fp db_now db request = (db', inr card) ->
     get_admit_card fp' db' current_user = inr card).
Proof.
  intros Hnone Huser Hf'. rewrite <- Huser in Hnone. split.
  - intros Hu roll db' card Hstep.
    destruct (step_allocated_success sch fp db_now db db' request roll card Hstep)
      as [-> [_ Hsame]].
    rewrite (Hsame Hu). apply get_new_card; try assumption; try reflexivity.
    cbn. now rewrite Huser.
  - intros db' card Hok.
    destruct (create_admit_card_success_inv sch fp db_now db db' request card Hok)
      as [-> ->].
    apply get_new_card; try assumption; try reflexivity.
    cbn. now rewrite Huser.
Qed.

(** X24. The roll on a card a call is answered with is larger than every
    roll that was on file when the call read the maximum, in every
    interleaving and under every schema; for a call whose read and insert
    meet the same store, these are all the rolls on file. *)
Theorem issued_roll_exceeds_rolls_read (sch : Schema) (fp : FaultPlan)
    (db_now : Z) (db0 : DB) :
  (forall roll db request db' card,
     generate_exam_roll fp (get_db_connection db0) =
       (get_db_connection db0, inr roll) ->
     step_call sch fp db_now db (allocated request roll) =
       (db', {| call_request := request; call_phase := Finished (inr card) |}) ->
     Forall (fun c => exam_roll c < exam_roll card) (admit_card db0)) /\
  (forall request db' card,
     create_admit_card sch fp db_now db0 request = (db', inr card) ->
     Forall (fun c => exam_roll c < exam_roll card) (admit_card db0)).
Proof.
  split.
  - intros roll db request db' card Hread Hstep.
    destruct (step_allocated_success sch fp db_now db db' request roll card Hstep)
      as [_ [Hroll _]].
    assert (Hvalue : roll = py_or (select_max_roll db0) ROLL_FLOOR + 1).
    { unfold generate_exam_roll, bind, query, ret in Hread.
      cbn [get_db_connection working] in Hread.
      destruct (fp 0%nat); [discriminate|]. now inversion Hread. }
    apply Forall_forall. intros c Hc. rewrite Hroll, Hvalue.
    unfold select_max_roll. apply new_roll_above. now apply in_map.
  - intros request db' card Hok.
    destruct (create_admit_card_success_inv sch fp db_now db0 db' request card Hok)
      as [-> _].
    apply Forall_forall. intros c Hc. cbn [exam_roll issued_card].
    unfold select_max_roll. apply new_roll_above. now apply in_map.
Qed.

End IssuedCard.

(** * The claims at concrete inputs *)

#[local] Existing Instance example_platform.

(** C6 on the store with Alice: an unknown email and a wrong password get the
    same answer. *)
Lemma authenticate_failures_indistinguishable_witness :
  login_for_access_token (H := example_platform) no_faults 200 201 db_alice
    "b@x.com" "pw1" =
    (db_alice, inl (login_error (HTTPExn incorrect_email_or_password))) /\
  login_for_access_token (H := example_platform) no_faults 200 201 db_alice
    "a@x.com" "pw2" =
    (db_alice, inl (login_error (HTTPExn incorrect_email_or_password))).
Proof.
  split.
  - apply (@authenticate_failures_indistinguishable example_platform
             no_faults 200 201 db_alice "b@x.com" "pw1" eq_refl).
    left. reflexivity.
  - apply (@authenticate_failures_indistinguishable example_platform
             no_faults 200 201 db_alice "a@x.com" "pw2" eq_refl).
    right.
    exists {| login_email := "a@x.com"; password_hash := "sha256:pw1";
              last_login := None |}.
    split; [reflexivity|]. cbv. discriminate.
Defined.

(** C7 for Alice: signing in at 201, resolving at 1000. *)
Lemma authenticate_then_resolve_witness :
  exists db' token user,
    login_for_access_token (H := example_platform) no_faults 200 201 db_alice
      "a@x.com" "pw1" =
      (db', inr {| access_token := token; token_type := "bearer" |}) /\
    get_current_user (H := example_platform) no_faults 1000 db' token = inr user /\
    email (info_fields user) = "a@x.com"%string.
Proof.
  apply (@authenticate_then_resolve example_platform 200 201 1000 db_alice
           "a@x.com" "pw1"
           {| login_email := "a@x.com"; password_hash := "sha256:pw1";
              last_login := None |}
           {| info_applicant_id := 1; info_fields := alice;
              created_at := 100; updated_at := 100 |});
    reflexivity.
Defined.

(** C8 for a token of Alice expiring at 2001: resolved at 2000, at 2001, with
    a foreign signature, and after her applicant_info row is gone. *)
Lemma resolve_outcomes_witness :
  let token :=
    jwt_encode (H := example_platform)
      {| sub := Some "a@x.com"%string; exp := Some 2001 |}
      (SECRET_KEY (Platform := example_platform)) in
  (exists row,
     get_current_user (H := example_platform) no_faults 2000 db_alice token
       = inr row) /\
  get_current_user (H := example_platform) no_faults 2001 db_alice token
    = inl (HTTPExn credentials_exception) /\
  get_current_user (H := example_platform) no_faults 2000 db_alice
    (Jws {| sub := Some "a@x.com"%string; exp := Some 2001 |} "forged")
    = inl (HTTPExn credentials_exception) /\
  get_current_user (H := example_platform) no_faults 2000 db_orphan token
    = inl (HTTPExn credentials_exception).
Proof.
  cbv zeta.
  pose proof (@resolve_outcomes example_platform 2000 db_alice "a@x.com" 2001)
    as Hearly.
  pose proof (@resolve_outcomes example_platform 2001 db_alice "a@x.com" 2001)
    as Hlate.
  pose proof (@resolve_outcomes example_platform 2000 db_orphan "a@x.com" 2001)
    as Horphan.
  cbv zeta in Hearly, Hlate, Horphan.
  destruct Hearly as [Hok [_ [Hforged _]]].
  destruct Hlate as [_ [Hexpired _]].
  destruct Horphan as [_ [_ [_ [_ Hgone]]]].
  split; [|split; [|split]].
  - eexists. apply Hok; reflexivity.
  - apply (Hexpired ltac:(discriminate) no_faults).
  - apply (Hforged no_faults). cbv. discriminate.
  - apply Hgone; reflexivity.
Defined.

(** C9 for Alice signing in at 201: the token expires at 201 + 1800. *)
Lemma minted_token_subject_and_expiry_witness :
  access_token
    {| access_token :=
         Jws {| sub := Some "a@x.com"%string; exp := Some 2001 |}
             "your-secret-keya@x.com@2001";
       token_type := "bearer" |} =
    jwt_encode (H := example_platform)
      {| sub := Some "a@x.com"%string; exp := Some (201 + timedelta_minutes 30) |}
      (SECRET_KEY (Platform := example_platform)) /\
  token_type
    {| access_token :=
         Jws {| sub := Some "a@x.com"%string; exp := Some 2001 |}
             "your-secret-keya@x.com@2001";
       token_type := "bearer" |} = "bearer"%string.
Proof.
  apply (@minted_token_subject_and_expiry example_platform no_faults 200 201
           db_alice (touched 200 "a@x.com" db_alice) "a@x.com" "pw1").
  reflexivity.
Defined.

(** C10 on the store where Alice's credential has no applicant_info row. *)
Lemma login_failure_keeps_last_login_witness :
  exists db',
    login_for_access_token (H := example_platform) no_faults 200 201 db_orphan
      "a@x.com" "pw1" =
      (db', inl (login_error (HTTPExn incorrect_email_or_password))) /\
    db' = touched 200 "a@x.com" db_orphan /\
    select_login "a@x.com" db' =
      Some {| login_email := "a@x.com"; password_hash := "sha256:pw1";
              last_login := Some 200 |}.
Proof.
  apply (@login_failure_keeps_last_login example_platform 200 201 db_orphan
           "a@x.com" "pw1"
           {| login_email := "a@x.com"; password_hash := "sha256:pw1";
              last_login := None |});
    reflexivity.
Defined.

(** C5 for Alice registering a second time. *)
Lemma register_atomic_and_duplicate_witness :
  register_applicant (H := example_platform) strict_schema no_faults 300
    db_alice alice_create =
    (db_alice, inl (HTTPExn {| status_code := 400;
                               detail := "Email already registered";
                               headers := [] |})) /\
  count_credentials "a@x.com"
    (fst (register_applicant (H := example_platform) strict_schema no_faults 300
            db_alice alice_create)) = 1%nat.
Proof.
  apply (proj2 (@register_atomic_and_duplicate example_platform strict_schema
                  no_faults 300 db_alice alice_create));
    try reflexivity.
  cbn. constructor; [intros [] | constructor].
Defined.

(** C1 with two calls racing (both read, then both insert): the roll column
    being unique, one card results, with roll 220431; served one after the
    other, the two calls leave the rolls 220431 and 220432. *)
Lemma interleaved_issuance_witness :
  (forall db' calls',
     run strict_schema no_faults 60 [0; 1; 0; 1]%nat empty_db
         (launch [card_for 1 1; card_for 2 1]) = (db', calls') ->
     map exam_roll (admit_card db') =
       rolls_above ROLL_FLOOR (List.length (admit_card db')) /\
     NoDup (map exam_roll (admit_card db')) /\
     List.length (admit_card db') = issued_count calls' /\
     (issued_count calls' <= 2)%nat) /\
  (forall db' calls',
     run strict_schema no_faults 60 (one_by_one 0 2) empty_db
         (launch [card_for 1 1; card_for 2 1]) = (db', calls') ->
     consecutive_rolls 2 db').
Proof.
  destruct (@interleaved_issuance example_platform strict_schema 60 empty_db
              [card_for 1 1; card_for 2 1] eq_refl) as [Hany Hseq].
  split.
  - intros db' calls'. apply (Hany eq_refl).
  - apply Hseq. cbn. constructor.
    + cbn. intros [Heq | []]. discriminate.
    + constructor; [intros [] | constructor].
Defined.

(** C1 fails on the code: two calls for applicants 1 and 2 against the empty
    table, scheduled read, read, insert, insert. With the roll column unique
    the second insert is refused and one card remains; with no constraint
    both cards carry 220431. *)
Lemma racing_calls_break_consecutive_rolls :
  ~ concurrent_issuance_claim strict_schema 60
      [card_for 1 1; card_for 2 1] [0; 1; 0; 1]%nat /\
  ~ concurrent_issuance_claim lax_schema 60
      [card_for 1 1; card_for 2 1] [0; 1; 0; 1]%nat.
Proof.
  assert (Hnd : NoDup (map applicant_id [card_for 1 1; card_for 2 1])).
  { cbn. constructor.
    - cbn. intros [Heq | []]. discriminate.
    - constructor; [intros [] | constructor]. }
  split; intros Hclaim; unfold concurrent_issuance_claim in Hclaim;
    specialize (Hclaim Hnd).
  - destruct (run strict_schema no_faults 60 [0; 1; 0; 1]%nat empty_db
                (launch [card_for 1 1; card_for 2 1])) as [db' calls'] eqn:Hrun.
    specialize (Hclaim db' calls' eq_refl).
    vm_compute in Hrun. inversion Hrun; subst. clear Hrun.
    destruct (Hclaim eq_refl) as [Hlen _]. discriminate Hlen.
  - destruct (run lax_schema no_faults 60 [0; 1; 0; 1]%nat empty_db
                (launch [card_for 1 1; card_for 2 1])) as [db' calls'] eqn:Hrun.
    specialize (Hclaim db' calls' eq_refl).
    vm_compute in Hrun. inversion Hrun; subst. clear Hrun.
    destruct (Hclaim eq_refl) as [_ [Hdup _]].
    cbn in Hdup. inversion Hdup as [|x l Hnotin _]; subst.
    apply Hnotin. now left.
Qed.

(** C3 at the call that lost a race: its roll 220431, read from the empty
    table, is taken when it inserts. *)
Lemma conflict_fails_without_retry_witness :
  step_call strict_schema no_faults 50 db_one_card
    {| call_request := card_for 8 2; call_phase := Allocated 220431 |} =
  (db_one_card,
   {| call_request := card_for 8 2;
      call_phase := Finished (inl (HTTPExn (database_error ER_DUP_ENTRY))) |}).
Proof.
  apply (@conflict_fails_without_retry example_platform strict_schema no_faults
           50 db_one_card (card_for 8 2) 220431);
    reflexivity.
Defined.

(** C3 fails on the code. The call for applicant 8 reads the empty table, the
    call for applicant 7 then reads and inserts 220431: the store is
    [db_one_card] and the first call still holds 220431. A fresh cycle on
    that store would issue 220432, yet the call is failed. *)
Lemma lost_race_is_not_retried :
  run strict_schema no_faults 50 [0; 1; 1]%nat empty_db
      (launch [card_for 8 2; card_for 7 1]) =
    (db_one_card,
     [ {| call_request := card_for 8 2; call_phase := Allocated 220431 |};
       {| call_request := card_for 7 1;
          call_phase :=
            Finished (inr {| card_request := card_for 7 1; exam_roll := 220431;
                             issued_at := 50; applicant_photo := None |}) |} ]) /\
  ~ retry_claim strict_schema 50 db_one_card (card_for 8 2) 220431.
Proof.
  split; [reflexivity|].
  intros Hclaim. unfold retry_claim in Hclaim.
  destruct Hclaim as [db2 [card Hstep]].
  - reflexivity.
  - do 2 eexists. reflexivity.
  - vm_compute in Hstep. discriminate Hstep.
Qed.

(** * The further properties at concrete inputs *)



(** X2 from the store with one card: two calls racing under a unique roll
    column, and one call on its own under no constraint. *)
Lemma rolls_stay_distinct_witness :
  NoDup (map exam_roll
           (admit_card
              (fst (run strict_schema no_faults 60 [0; 1; 0; 1]%nat db_one_card
                      (launch [card_for 8 2; card_for 9 2]))))) /\
  NoDup (map exam_roll
           (admit_card
              (fst (create_admit_card lax_schema no_faults 60 db_one_card
                      (card_for 8 2))))).
Proof.
  destruct (@rolls_stay_distinct example_platform strict_schema no_faults 60
              db_one_card
              (NoDup_cons _ (fun H : In 220431 [] => H) (NoDup_nil _)))
    as [Hrace _].
  destruct (@rolls_stay_distinct example_platform lax_schema no_faults 60
              db_one_card
              (NoDup_cons _ (fun H : In 220431 [] => H) (NoDup_nil _)))
    as [_ Halone].
  split; [apply (Hrace eq_refl) | apply Halone].
Defined.

(** X3: the read-back of the card for applicant 8 fails with error 2013. *)
Lemma create_admit_card_failed_read_back_witness :
  create_admit_card strict_schema (fail_at 3 2013) 60 db_one_card (card_for 8 2) =
    (with_card db_one_card (issued_card 60 db_one_card (card_for 8 2)),
     inl (HTTPExn (database_error 2013))).
Proof.
  apply (@create_admit_card_failed_read_back example_platform strict_schema
           (fail_at 3 2013) 60 db_one_card (card_for 8 2) 2013);
    reflexivity.
Defined.

(** X5 for the token Alice gets at 201, resolved at 1000. *)
Lemma get_current_user_sound_witness :
  exists claims,
    Jws {| sub := Some "a@x.com"%string; exp := Some 2001 |}
        "your-secret-keya@x.com@2001" =
      jwt_encode claims SECRET_KEY /\
    sub claims = Some (email (info_fields alice_row)) /\
    (forall e, exp claims = Some e -> 1000 < e) /\
    In alice_row (applicant_info db_alice).
Proof.
  apply (@get_current_user_sound example_platform no_faults 1000 db_alice
           (Jws {| sub := Some "a@x.com"%string; exp := Some 2001 |}
                "your-secret-keya@x.com@2001") alice_row).
  reflexivity.
Defined.

(** X7: Alice signs in and the commit fails with error 2013. *)
Lemma login_storage_failure_witness :
  login_for_access_token (fail_at 2 2013) 200 201 db_alice "a@x.com" "pw1" =
    (db_alice, inl (login_error (PyExn (MySqlError 2013)))).
Proof.
  apply (@login_storage_failure example_platform (fail_at 2 2013) 200 201
           db_alice "a@x.com" "pw1" 2013).
  right. split; [reflexivity|]. split.
  - exists {| login_email := "a@x.com"; password_hash := "sha256:pw1";
              last_login := None |}.
    split; reflexivity.
  - right. split; reflexivity.
Defined.

(** X8: Alice registers at 100 into the empty store, signs in at 201 and
    resolves her token at 1000. *)
Lemma register_then_sign_in_witness :
  exists db2 token user,
    login_for_access_token no_faults 200 201 db_alice "a@x.com" "pw1" =
      (db2, inr {| access_token := token; token_type := "bearer" |}) /\
    get_current_user no_faults 1000 db2 token = inr user /\
    info_fields user = alice.
Proof.
  apply (@register_then_sign_in example_platform strict_schema no_faults
           100 200 201 1000 empty_db db_alice alice_create
           "Applicant registered successfully");
    reflexivity.
Defined.

(** X9 for Alice, without and with a card. *)
Lemma get_admit_card_own_card_witness :
  get_admit_card no_faults db_alice alice_row =
    inl (HTTPExn admit_card_not_found) /\
  exists card,
    In card (admit_card db_alice_card) /\
    applicant_id (card_request card) = 1 /\
    get_admit_card no_faults db_alice_card alice_row =
      inr (photo_to_base64 card).
Proof.
  split.
  - apply (proj1 (@get_admit_card_own_card example_platform no_faults db_alice
                    alice_row eq_refl)).
    reflexivity.
  - apply (proj2 (@get_admit_card_own_card example_platform no_faults
                    db_alice_card alice_row eq_refl)).
    reflexivity.
Defined.

(** X11: Alice uploads a photo before she has a card. *)
Lemma upload_without_card_witness :
  upload_applicant_photo true no_faults db_alice "JPEG" alice_row =
    (db_alice, inl (upload_error (HTTPExn admit_card_not_found))).
Proof.
  apply (@upload_without_card example_platform true no_faults db_alice "JPEG"
           alice_row);
    reflexivity.
Defined.

(** X12: Alice uploads a photo and fetches her card. *)
Lemma upload_then_get_admit_card_witness :
  exists card,
    In card (admit_card db_alice_card) /\
    applicant_id (card_request card) = info_applicant_id alice_row /\
    get_admit_card no_faults
      (fst (upload_applicant_photo false no_faults db_alice_card "JPEG" alice_row))
      alice_row =
    inr {| card_request := card_request card; exam_roll := exam_roll card;
           issued_at := issued_at card;
           applicant_photo := Some (b64encode "JPEG") |}.
Proof.
  apply (@upload_then_get_admit_card example_platform false no_faults no_faults
           db_alice_card "JPEG" alice_row);
    try reflexivity.
  discriminate.
Defined.

(** X13: Alice uploads the same photo twice, the connection counting the
    rows changed. *)
Lemma upload_same_photo_again_witness :
  upload_applicant_photo false no_faults
    (fst (upload_applicant_photo false no_faults db_alice_card "JPEG" alice_row))
    "JPEG" alice_row =
  (fst (upload_applicant_photo false no_faults db_alice_card "JPEG" alice_row),
   inl (upload_error (HTTPExn admit_card_not_found))).
Proof.
  apply (@upload_same_photo_again example_platform false db_alice_card "JPEG"
           alice_row).
  reflexivity.
Defined.

(** X14: a center sent with center_id 77 is stored under another key. *)
Lemma create_exam_center_round_trip_witness :
  exists id,
    ~ In id (center_ids example_tables) /\
    snd (create_exam_center no_faults example_tables example_center) =
      inr {| ExamCenter.center_id := Some id;
             ExamCenter.center_name := "Main Hall";
             ExamCenter.center_address := "Dhaka" |} /\
    get_exam_centers no_faults
      (fst (create_exam_center no_faults example_tables example_center)) =
      inr (exam_center example_tables ++
           [ {| ExamCenter.center_id := Some id;
                ExamCenter.center_name := "Main Hall";
                ExamCenter.center_address := "Dhaka" |} ]).
Proof.
  apply (@create_exam_center_round_trip example_platform no_faults no_faults
           example_tables example_center);
    reflexivity.
Defined.

(** X15 for a unit of center 1. *)
Lemma create_exam_unit_round_trip_witness :
  exists id,
    ~ In id (unit_ids example_tables) /\
    snd (create_exam_unit no_faults example_tables example_unit) =
      inr {| ExamUnit.unit_id := Some id;
             ExamUnit.unit_code := ExamUnit.unit_code example_unit;
             ExamUnit.center_id := ExamUnit.center_id example_unit;
             ExamUnit.exam_date := ExamUnit.exam_date example_unit;
             ExamUnit.exam_time := ExamUnit.exam_time example_unit;
             ExamUnit.exam_duration := ExamUnit.exam_duration example_unit |} /\
    get_exam_units no_faults
      (fst (create_exam_unit no_faults example_tables example_unit)) =
      inr (exam_units example_tables ++
           [ {| ExamUnit.unit_id := Some id;
                ExamUnit.unit_code := ExamUnit.unit_code example_unit;
                ExamUnit.center_id := ExamUnit.center_id example_unit;
                ExamUnit.exam_date := ExamUnit.exam_date example_unit;
                ExamUnit.exam_time := ExamUnit.exam_time example_unit;
                ExamUnit.exam_duration := ExamUnit.exam_duration example_unit |} ]).
Proof.
  apply (@create_exam_unit_round_trip example_platform no_faults no_faults
           example_tables example_unit);
    reflexivity.
Defined.

(** X16: the commit fails with error 1205. *)
Lemma create_center_or_unit_failure_witness :
  create_exam_center (fail_at 1 1205) example_tables example_center =
    (example_tables, inl (HTTPExn (database_error 1205))) /\
  create_exam_unit (fail_at 1 1205) example_tables example_unit =
    (example_tables, inl (HTTPExn (database_error 1205))).
Proof.
  apply (@create_center_or_unit_failure example_platform (fail_at 1 1205)
           example_tables example_center example_unit 1205).
  right. split; reflexivity.
Defined.

(** X17: Alice pays with a request that names applicant 99. *)
Lemma make_payment_for_current_user_witness :
  exists row,
    snd (make_payment no_faults 400 401 example_tables example_payment alice_row) =
      inr (Some row) /\
    payment (fst (make_payment no_faults 400 401 example_tables example_payment
                    alice_row)) =
      payment example_tables ++ [row] /\
    Payment.applicant_id row = 1 /\
    Payment.payment_datetime row = Some 400.
Proof.
  destruct (@make_payment_for_current_user example_platform no_faults 400 401
              example_tables example_payment alice_row eq_refl eq_refl eq_refl)
    as [row [Hanswer [Hstored [Hpayer [_ [_ [_ [Hdefault _]]]]]]]].
  exists row. split; [exact Hanswer|]. split; [exact Hstored|].
  split; [exact Hpayer|]. apply Hdefault. reflexivity.
Defined.

(** X18: the read-back of Alice's payment fails with error 2013. *)
Lemma make_payment_failures_witness :
  make_payment (fail_at 0 2013) 400 401 example_tables example_payment alice_row =
    (example_tables, inl (HTTPExn (database_error 2013))) /\
  snd (make_payment (fail_at 2 2013) 400 401 example_tables example_payment
         alice_row) = inl (HTTPExn (database_error 2013)) /\
  List.length
    (payment (fst (make_payment (fail_at 2 2013) 400 401 example_tables
                     example_payment alice_row))) = 2%nat.
Proof.
  split; [|split].
  - apply (proj1 (@make_payment_failures example_platform (fail_at 0 2013)
                    400 401 example_tables example_payment alice_row 2013)).
    left. reflexivity.
  - destruct (proj2 (@make_payment_failures example_platform (fail_at 2 2013)
                       400 401 example_tables example_payment alice_row 2013)
                eq_refl eq_refl eq_refl) as [Hanswer _].
    now rewrite Hanswer.
  - apply (proj2 (@make_payment_failures example_platform (fail_at 2 2013)
                    400 401 example_tables example_payment alice_row 2013)
             eq_refl eq_refl eq_refl).
Defined.

(** X19 for the pending result with 40 marks. *)
Lemma create_result_published_iff_settled_witness :
  exists row,
    snd (create_result no_faults 500 80 example_tables example_result) =
      inr (Some row) /\
    Result.status row <> ResultStatus.PENDING /\
    Result.result_published row = Some 500 /\
    Result.marks_obtained row = Some (Finite (40 # 1)).
Proof.
  destruct (@create_result_published_iff_settled example_platform no_faults
              500 80 example_tables example_result eq_refl eq_refl eq_refl)
    as [row [Hanswer [_ [Hstatus [Hpublished [Hdate [Hfinite _]]]]]]].
  exists row. split; [exact Hanswer|].
  assert (Hsettled : Result.status row <> ResultStatus.PENDING).
  { intros Hp. apply Hstatus in Hp. destruct Hp as [_ Hmarks]. discriminate. }
  split; [exact Hsettled|]. split.
  - destruct (Result.result_published row) as [d|] eqn:Hd.
    + now rewrite (Hdate d eq_refl).
    + exfalso. apply Hsettled. now apply Hpublished.
  - apply Hfinite. reflexivity.
Defined.

(** X20 for the pending result with 40 marks: it is stored as Passed. *)
Lemma create_result_grading_witness :
  exists row,
    snd (create_result no_faults 500 80 example_tables example_result) =
      inr (Some row) /\
    Result.status row = ResultStatus.PASSED.
Proof.
  destruct (@create_result_grading example_platform no_faults 500 80
              example_tables example_result eq_refl eq_refl eq_refl)
    as [row [Hanswer [Hgrade _]]].
  exists row. split; [exact Hanswer|].
  apply (proj1 (Hgrade eq_refl (40 # 1)%Q eq_refl)).
  discriminate.
Defined.

(** X21: the result stored for applicant 1 is listed to Alice after the one
    she had. *)
Lemma create_result_then_get_results_witness :
  exists row,
    snd (create_result no_faults 500 80 example_tables example_result) =
      inr (Some row) /\
    get_results no_faults
      (fst (create_result no_faults 500 80 example_tables example_result))
      alice_row =
    inr (result example_tables ++ [row]).
Proof.
  apply (@create_result_then_get_results example_platform no_faults no_faults
           500 80 example_tables example_result alice_row);
    reflexivity.
Defined.

(** X22: Alice signs in at 201 and pays at 1000 with a request that names
    applicant 99. *)
Lemma payment_goes_to_token_subject_witness :
  exists db' token paid,
    login_for_access_token no_faults 200 201 db_alice "a@x.com" "pw1" =
      (db', inr {| access_token := token; token_type := "bearer" |}) /\
    snd (depends_current_user no_faults 1000 db' token example_tables
           (make_payment no_faults 1000 1001 example_tables example_payment)) =
      inr (Some paid) /\
    Payment.applicant_id paid = info_applicant_id alice_row.
Proof.
  apply (@payment_goes_to_token_subject example_platform 200 201 1000 1000 1001
           db_alice example_tables "a@x.com" "pw1"
           {| login_email := "a@x.com"; password_hash := "sha256:pw1";
              last_login := None |}
           alice_row example_payment);
    reflexivity.
Defined.

(** X23: applicant 1 inserts under roll 220431 into Alice's store, the roll
    column unique, and fetches the card. *)
Lemma issue_then_get_admit_card_witness :
  get_admit_card no_faults
    (with_card db_alice (card_with_roll 150 (card_for 1 1) 220431)) alice_row =
  inr (card_with_roll 150 (card_for 1 1) 220431).
Proof.
  apply (proj1 (@issue_then_get_admit_card example_platform strict_schema
                  no_faults no_faults 150 db_alice (card_for 1 1) alice_row
                  eq_refl eq_refl eq_refl) eq_refl 220431).
  reflexivity.
Defined.

(** X24: a call reads the store with one card, gets 220432, and is answered
    with a card under that roll. *)
Lemma issued_roll_exceeds_rolls_read_witness :
  Forall (fun c => exam_roll c < 220432) (admit_card db_one_card).
Proof.
  apply (proj1 (@issued_roll_exceeds_rolls_read example_platform strict_schema
                  no_faults 60 db_one_card)
           220432 db_one_card (card_for 8 2)
           (with_card db_one_card (card_with_roll 60 (card_for 8 2) 220432))
           (card_with_roll 60 (card_for 8 2) 220432));
    reflexivity.
Defined.
